(** * Watchdog, log filters and shutdown of RSS-to-Telegram-Bot

    A shallow embedding of [src/log.py]: the teardown coroutine
    [exit_handler], [shutdown], the [_Watchdog] timer, the apscheduler
    filter [_APSCFilter] and the aiohttp access filter
    [AiohttpAccessFilter], followed by the properties proved about them. *)

From stdpp Require Import base list strings pretty gmap.
From Stdlib Require Import ZArith Ascii Lia.

Local Open Scope Z_scope.

(** ** Python values and control flow used by the module *)

Module Py.

(** Exceptions that are instances of [Exception]; [SystemExit] is not one
    of them and is an outcome of its own. *)
Inductive exn : Type :=
| TimeoutError                      (* asyncio.TimeoutError *)
| AttributeError (what : string)
| FormatError (what : string)       (* TypeError / ValueError of [%] *)
| Error (name : string).            (* any other Exception of a collaborator *)

(** How a call ends: with a value, with an exception, with
    [SystemExit(code)] raised by [exit(code)], or with the process ended by
    a signal inside the call; after that nothing of the program runs, no
    handler and no [finally] block. *)
Inductive outcome (A : Type) : Type :=
| Ret (a : A)
| Raise (e : exn)
| SystemExit (code : Z)
| Killed (signal : Z).

Arguments Ret {A} a.
Arguments Raise {A} e.
Arguments SystemExit {A} code.
Arguments Killed {A} signal.

(** [sub in s] on strings. *)
Fixpoint str_in (sub s : string) : bool :=
  String.prefix sub s ||
  match s with
  | EmptyString => false
  | String _ s' => str_in sub s'
  end.

Definition newline : string := String "010"%char EmptyString.
Definition dquote : string := String "034"%char EmptyString.

(** [str(n)] for an integer, as an f-string renders it. *)
Definition str (n : Z) : string := pretty n.

End Py.

Import Py.

(** ** logging *)

Definition DEBUG : Z := 10.
Definition INFO : Z := 20.
Definition WARNING : Z := 30.
Definition ERROR : Z := 40.
Definition CRITICAL : Z := 50.

(** [record.msg % record.args] is Python's printf-style formatting; it is
    taken as an operation on the argument type, which either gives the
    formatted message or raises. *)
Class Formatting (Args : Type) : Type :=
  percent : string -> Args -> exn + string.

Record LogRecord (Args : Type) : Type := mkRecord {
  levelno : Z;
  msg : string;
  args : Args;
}.

Arguments mkRecord {Args} levelno msg args.
Arguments levelno {Args} _.
Arguments msg {Args} _.
Arguments args {Args} _.

(** The formatted message of a record, [record.msg % record.args]. *)
Definition formatted `{Formatting Args} (record : LogRecord Args) : exn + string :=
  percent (msg record) (args record).

(** ** asyncio objects and observable calls *)

(** Coroutine objects. Calling an [async def] only builds the object;
    nothing runs until the loop is given it. *)
Inductive Awaitable : Type :=
| SendMessage (entity : Z) (message : string)  (* env.bot.send_message(entity, message) *)
| External (name : string).                    (* an awaitable passed in by another module *)

(** What [env.loop.create_task] is given. *)
Inductive Task : Type :=
| RunAwaitable (a : Awaitable)
| ExitHandler (prerequisite : option Awaitable).  (* exit_handler(prerequisite) *)

(** A handle returned by [env.loop.call_later(delay, _exit_bot, delay)]:
    the argument kept for the callback, the [_cancelled] flag, and whether
    the loop has already run the callback. *)
Record TimerHandle : Type := mkTimer {
  delay : Z;
  cancelled : bool;
  ran : bool;
}.

Definition pending (t : TimerHandle) : bool := negb (cancelled t) && negb (ran t).

(** [handle.cancel()] sets the flag, whatever the state of the handle. *)
Definition TimerHandle_cancel (t : TimerHandle) : TimerHandle :=
  mkTimer (delay t) true (ran t).

(** The loop has run the callback of the handle. *)
Definition TimerHandle_run (t : TimerHandle) : TimerHandle :=
  mkTimer (delay t) (cancelled t) true.

Definition SIGTERM : Z := 15.

(** What the process does with a [SIGTERM], [signal.getsignal(signal.SIGTERM)].
    The module installs no handler; whether the program does elsewhere is
    not in this file, so the disposition is part of the state the module
    runs in. A Python handler runs in the main thread inside [os.kill]
    when the process signals itself, and what it raises leaves that call. *)
Inductive Disposition : Type :=
| SIG_DFL                             (* the default action: the signal ends the process *)
| SIG_IGN                             (* the signal is ignored *)
| Handler (result : outcome unit).    (* a handler that returns, raises or exits *)

(** Calls with an effect outside the module, in program order. *)
Inductive Event : Type :=
| Critical (message : string) (exc_info : option exn)  (* _logger.critical *)
| CallLater (handle : nat) (delay : Z)
| CancelTimer (handle : nat)
| CreateTask (t : Task)
| WaitFor (a : Awaitable) (timeout : Z)       (* asyncio.wait_for starts waiting *)
| CancelAwaitable (a : Awaitable)             (* asyncio.wait_for gives up on [a] *)
| Disconnect                                  (* env.bot.disconnect() *)
| CloseConnections                            (* Tortoise.close_connections() *)
| Kill (signal : Z).                          (* os.kill(os.getpid(), signal) *)

(** ** Module state *)

(** The Telethon client bound to [env.bot]. *)
Record Client : Type := mkClient {
  is_connected : bool;
}.

Record State : Type := mkState {
  bot : option Client;         (* env.bot *)
  MANAGER : Z;                 (* env.MANAGER *)
  loop_is_running : bool;      (* env.loop.is_running() *)
  timers : list TimerHandle;   (* handles made by env.loop.call_later, by creation index *)
  count : Z;                   (* apsc_filter.count *)
  watchdog : nat;              (* apsc_filter.watchdog._watchdog *)
  sigterm : Disposition;       (* signal.getsignal(signal.SIGTERM) *)
}.

Definition set_bot (b : option Client) (s : State) : State :=
  mkState b (MANAGER s) (loop_is_running s) (timers s) (count s) (watchdog s) (sigterm s).
Definition set_timers (ts : list TimerHandle) (s : State) : State :=
  mkState (bot s) (MANAGER s) (loop_is_running s) ts (count s) (watchdog s) (sigterm s).
Definition set_count (c : Z) (s : State) : State :=
  mkState (bot s) (MANAGER s) (loop_is_running s) (timers s) c (watchdog s) (sigterm s).
Definition set_watchdog (h : nat) (s : State) : State :=
  mkState (bot s) (MANAGER s) (loop_is_running s) (timers s) (count s) h (sigterm s).

(** ** Statements: state, raised exceptions and emitted calls *)

Definition M (A : Type) : Type := State -> outcome A * State * list Event.

#[global] Instance M_ret : MRet M := fun A a s => (Ret a, s, []).

#[global] Instance M_bind : MBind M := fun A B f m s =>
  match m s with
  | (Ret a, s1, t1) => let '(o, s2, t2) := f a s1 in (o, s2, t1 ++ t2)
  | (Raise e, s1, t1) => (Raise e, s1, t1)
  | (SystemExit c, s1, t1) => (SystemExit c, s1, t1)
  | (Killed k, s1, t1) => (Killed k, s1, t1)
  end.

Definition get {A} (field : State -> A) : M A := fun s => (Ret (field s), s, []).
Definition modify (f : State -> State) : M unit := fun s => (Ret tt, f s, []).
Definition emit (e : Event) : M unit := fun s => (Ret tt, s, [e]).
Definition raise {A} (e : exn) : M A := fun s => (Raise e, s, []).

(** [exit(code)] raises [SystemExit(code)]. *)
Definition exit {A} (code : Z) : M A := fun s => (SystemExit code, s, []).

(** The process is ended by the signal. *)
Definition killed {A} (signal : Z) : M A := fun s => (Killed signal, s, []).

(** [try: body / except <clause> as e: handler e]; [handler e = None] when
    the clause does not match [e]. [SystemExit] is no [Exception] and is
    never caught. *)
Definition try_except {A} (body : M A) (handler : exn -> option (M A)) : M A :=
  fun s =>
    match body s with
    | (Raise e, s1, t1) =>
        match handler e with
        | Some h => let '(o, s2, t2) := h s1 in (o, s2, t1 ++ t2)
        | None => (Raise e, s1, t1)
        end
    | r => r
    end.

(** [try: body / finally: final]. The final block runs however the body
    ends, unless the process ended in it; what the final block raises
    replaces what the body raised. *)
Definition try_finally {A} (body : M A) (final : M unit) : M A :=
  fun s =>
    match body s with
    | (Killed k, s1, t1) => (Killed k, s1, t1)
    | (o, s1, t1) =>
        match final s1 with
        | (Ret _, s2, t2) => (o, s2, t1 ++ t2)
        | (Raise e, s2, t2) => (Raise e, s2, t1 ++ t2)
        | (SystemExit c, s2, t2) => (SystemExit c, s2, t1 ++ t2)
        | (Killed k, s2, t2) => (Killed k, s2, t1 ++ t2)
        end
    end.

Definition critical (message : string) (exc_info : option exn) : M unit :=
  emit (Critical message exc_info).

(** ** env.loop *)

Module Loop.

(** [env.loop.call_later(delay, _exit_bot, delay)]: a fresh pending handle. *)
Definition call_later (delay : Z) : M nat :=
  h ← get (fun s => length (timers s));
  modify (fun s => set_timers (timers s ++ [mkTimer delay false false]) s);;
  emit (CallLater h delay);;
  mret h.

(** [handle.cancel()] on the handle with index [h]. *)
Definition cancel (h : nat) : M unit :=
  modify (fun s => set_timers (alter TimerHandle_cancel h (timers s)) s);;
  emit (CancelTimer h).

Definition create_task (t : Task) : M unit := emit (CreateTask t).

End Loop.

(** ** Collaborators awaited by the teardown *)

(** What an awaited operation does while [asyncio.wait_for] waits for it. *)
Inductive Completion : Type :=
| Completes                (* returns before the timeout *)
| Fails (e : exn)          (* raises before the timeout *)
| StillPending.            (* has not finished when the timeout elapses *)

(** The behaviour of the awaited collaborators during one run of
    [exit_handler]; [None] means the call returns, [Some e] that it raises.
    Every awaited call finishes, with a value or with an [Exception]. *)
Record Collaborators : Type := mkCollab {
  prerequisite_run : Completion;
  disconnect_run : option exn;
  close_connections_run : option exn;
}.

(** [await asyncio.wait_for(aw, timeout)]: the result or the exception of
    [aw] if it finishes in time; otherwise [aw] is cancelled (the call is
    not wrapped in [asyncio.shield]) and [asyncio.TimeoutError] is raised. *)
Definition wait_for (aw : Awaitable) (timeout : Z) (run : Completion) : M unit :=
  emit (WaitFor aw timeout);;
  match run with
  | Completes => mret tt
  | Fails e => raise e
  | StillPending => emit (CancelAwaitable aw);; raise TimeoutError
  end.

(** [env.bot.send_message(entity, message)]: the attribute lookup fails on
    [None]; on a client the call builds the coroutine. *)
Definition bot_send_message (entity : Z) (message : string) : M Awaitable :=
  b ← get bot;
  match b with
  | None => raise (AttributeError "'NoneType' object has no attribute 'send_message'")
  | Some _ => mret (SendMessage entity message)
  end.

(** [await env.bot.disconnect()] *)
Definition bot_disconnect (w : Collaborators) : M unit :=
  emit Disconnect;;
  match disconnect_run w with
  | Some e => raise e
  | None => modify (set_bot (Some (mkClient false)))
  end.

(** [await Tortoise.close_connections()] *)
Definition Tortoise_close_connections (w : Collaborators) : M unit :=
  emit CloseConnections;;
  match close_connections_run w with
  | Some e => raise e
  | None => mret tt
  end.

(** [os.kill(os.getpid(), signal.SIGTERM)], the only signal the module
    sends. Under the default disposition the process ends inside the call
    and the statement after it is not reached; an ignored signal lets the
    call return; a handler runs before the call returns and ends it the way
    the handler ends. *)
Definition os_kill (signal : Z) : M unit :=
  emit (Kill signal);;
  disposition ← get sigterm;
  match disposition with
  | SIG_DFL => killed signal
  | SIG_IGN => mret tt
  | Handler result => fun s => (result, s, [])
  end.

(** ** exit_handler and shutdown *)

Definition exit_handler (w : Collaborators) (prerequisite : option Awaitable) : M unit :=
  try_except
    ((match prerequisite with
      | Some p =>
          try_except (wait_for p 10 (prerequisite_run w))
            (fun e =>
               match e with
               | TimeoutError =>
                   Some (critical "Failed to gracefully exit: prerequisite timed out" None)
               | _ => None
               end)
      | None => mret tt
      end);;
     try_finally
       (b ← get bot;
        match b with
        | Some client => if is_connected client then bot_disconnect w else mret tt
        | None => mret tt
        end)
       (Tortoise_close_connections w))
    (fun e =>
       Some (critical "Failed to gracefully exit:" (Some e);;
             os_kill SIGTERM));;
  exit 1.

(** The future made by [asyncio.gather(..., return_exceptions=True)] is
    dropped; only the task creation is recorded. *)
Definition shutdown (prerequisite : option Awaitable) : M unit :=
  running ← get loop_is_running;
  (if negb running then exit 1 else mret tt);;
  Loop.create_task (ExitHandler prerequisite).

(** ** class _Watchdog *)

Module Watchdog.

Definition init_delay : Z := 5 * 60.
Definition fine_delay : Z := 15 * 60.

Definition _exit_bot (delay : Z) : M unit :=
  let msg := "Never heard from the bot for " +:+ str delay +:+ " seconds. Exiting..." in
  critical msg None;;
  b ← get bot;
  coro ← match b with
         | Some _ =>
             manager ← get MANAGER;
             c ← bot_send_message manager ("WATCHDOG: " +:+ msg);
             mret (Some c)
         | None => mret None
         end;
  shutdown coro.

Definition init (delay : Z) : M unit :=
  h ← Loop.call_later delay;
  modify (set_watchdog h).

Definition fine (delay : Z) : M unit :=
  h ← get watchdog;
  Loop.cancel h;;
  h' ← Loop.call_later delay;
  modify (set_watchdog h').

End Watchdog.

(** ** class _APSCFilter *)

Module APSCFilter.

Definition SKIPPED : string := "skipped: maximum number of running instances reached".
Definition EXECUTED : string := " executed successfully".
Definition RUNNING : string := "Running job " +:+ dquote +:+ "run_monitor_task".

(** The text of the operator notification for the running count. *)
Definition conflict_text (count : Z) (msg : string) : string :=
  "RSS monitor tasks have conflicted too many times (" +:+ str count +:+ ")!" +:+ newline
  +:+ (if count <? 15
       then "Please store the log and restart." +:+ newline
            +:+ "(sometimes it may be caused by too many subscriptions)"
       else "Now the bot will restart.")
  +:+ newline +:+ newline +:+ msg.

Definition init : M unit :=
  modify (set_count 0);;
  Watchdog.init Watchdog.init_delay.

Definition filter `{Formatting Args} (record : LogRecord Args) : M bool :=
  msg ← match formatted record with inl e => raise e | inr m => mret m end;
  if str_in SKIPPED msg then
    modify (fun s => set_count (count s + 1) s);;
    c ← get count;
    (if negb (c =? 0) && (c mod 5 =? 0) then
       manager ← get MANAGER;
       coro ← bot_send_message manager (conflict_text c msg);
       if 15 <=? c then
         critical ("RSS monitor tasks have conflicted too many times ("
                   +:+ str c +:+ ")! Exiting...") None;;
         shutdown (Some coro)
       else
         Loop.create_task (RunAwaitable coro)
     else mret tt);;
    mret true
  else if str_in EXECUTED msg then
    modify (set_count 0);;
    Watchdog.fine Watchdog.fine_delay;;
    mret false
  else if str_in RUNNING msg then
    mret false
  else
    mret true.

End APSCFilter.

(** ** class AiohttpAccessFilter *)

Module AiohttpAccessFilter.

Definition filter `{Formatting Args} (record : LogRecord Args) : outcome bool :=
  match formatted record with
  | inl e => Raise e
  | inr msg =>
      if (levelno record <=? INFO) && negb (str_in "Mozilla" msg)
      then Ret false
      else Ret true
  end.

End AiohttpAccessFilter.

(** ** Runs of the module *)

(** The coroutine and the log line the filter makes at count [c]. *)
Definition notification (s : State) (c : Z) (m : string) : Awaitable :=
  SendMessage (MANAGER s) (APSCFilter.conflict_text c m).

Definition exiting (c : Z) : Event :=
  Critical ("RSS monitor tasks have conflicted too many times ("
            +:+ str c +:+ ")! Exiting...") None.

(** The state [watchdog.fine(delay)] leaves: the current handle cancelled,
    a fresh handle appended and made current. *)
Definition rearmed (delay : Z) (s : State) : State :=
  mkState (bot s) (MANAGER s) (loop_is_running s)
          (alter TimerHandle_cancel (watchdog s) (timers s) ++ [mkTimer delay false false])
          (count s) (length (timers s)) (sigterm s).

(** The records handed to [apsc_filter.filter] one after the other. The
    filter object keeps its state across calls, also across a call that
    raised; [SystemExit] and the end of the process end the run. *)
Fixpoint feed `{Formatting Args} (records : list (LogRecord Args)) (s : State)
  : list (outcome bool * list Event) * State :=
  match records with
  | [] => ([], s)
  | record :: rest =>
      let '(o, s1, t) := APSCFilter.filter record s in
      match o with
      | SystemExit _ | Killed _ => ([(o, t)], s1)
      | _ => let '(results, s2) := feed rest s1 in ((o, t) :: results, s2)
      end
  end.

(** The operator notification handed to the loop: as a task of its own, or
    as the prerequisite the teardown task waits for. *)
Definition is_notification (e : Event) : bool :=
  match e with
  | CreateTask (RunAwaitable (SendMessage _ _)) => true
  | CreateTask (ExitHandler (Some (SendMessage _ _))) => true
  | _ => false
  end.

(** A call of [shutdown]: it either schedules the teardown or exits. *)
Definition is_teardown (e : Event) : bool :=
  match e with
  | CreateTask (ExitHandler _) => true
  | _ => false
  end.

Definition notified {A} (r : outcome A * list Event) : bool :=
  existsb is_notification r.2.

Definition shutdown_initiated {A} (r : outcome A * list Event) : bool :=
  existsb is_teardown r.2 || match r.1 with SystemExit _ => true | _ => false end.

(** What the watchdog timer goes through: a heartbeat [watchdog.fine(delay)],
    or the loop running the callback of one of its handles. The loop only
    runs callbacks while it is running, and only of handles that are
    neither cancelled nor already run. *)
Inductive Action : Type :=
| Heartbeat (delay : Z)
| Expire (h : nat).

Definition enabled (a : Action) (s : State) : bool :=
  match a with
  | Heartbeat _ => true
  | Expire h =>
      loop_is_running s &&
      match timers s !! h with
      | Some t => pending t
      | None => false
      end
  end.

(** The loop takes handle [h] off its schedule and calls [_exit_bot(delay)]. *)
Definition expire (h : nat) : M unit :=
  ts ← get timers;
  match ts !! h with
  | Some t =>
      modify (set_timers (<[h := TimerHandle_run t]> ts));;
      Watchdog._exit_bot (delay t)
  | None => mret tt
  end.

Definition perform (a : Action) : M unit :=
  match a with
  | Heartbeat delay => Watchdog.fine delay
  | Expire h => expire h
  end.

(** A sequence of actions, each enabled when its turn comes; [None] when
    one of them is not. *)
Fixpoint run (acts : list Action) (s : State) : option (State * list Event) :=
  match acts with
  | [] => Some (s, [])
  | a :: rest =>
      if enabled a s then
        let '(_, s1, t1) := perform a s in
        match run rest s1 with
        | Some (s2, t2) => Some (s2, t1 ++ t2)
        | None => None
        end
      else None
  end.

Definition pending_handles (s : State) : list TimerHandle :=
  List.filter pending (timers s).

(** The two kinds of record that touch the counter: the first and the
    second test of [filter] on the formatted message. *)
Definition failure_signal `{Formatting Args} (record : LogRecord Args) : Prop :=
  exists m, formatted record = inr m /\ str_in APSCFilter.SKIPPED m = true.

Definition heartbeat_signal `{Formatting Args} (record : LogRecord Args) : Prop :=
  exists m, formatted record = inr m /\
            str_in APSCFilter.SKIPPED m = false /\
            str_in APSCFilter.EXECUTED m = true.

(** The wait for the prerequisite ends without an exception leaving the
    inner [try]: there is no prerequisite, it completes, or the wait ends
    in [asyncio.TimeoutError]. *)
Definition prerequisite_settles (w : Collaborators) (prerequisite : option Awaitable) : bool :=
  match prerequisite, prerequisite_run w with
  | Some _, Fails TimeoutError => true
  | Some _, Fails _ => false
  | _, _ => true
  end.

(** [env.bot and env.bot.is_connected()] *)
Definition bot_connected (s : State) : bool :=
  match bot s with
  | Some client => is_connected client
  | None => false
  end.

(** The statements inside the outer [try] of [exit_handler]. *)
Definition teardown_steps (w : Collaborators) (prerequisite : option Awaitable) : M unit :=
  (match prerequisite with
   | Some p =>
       try_except (wait_for p 10 (prerequisite_run w))
         (fun e =>
            match e with
            | TimeoutError =>
                Some (critical "Failed to gracefully exit: prerequisite timed out" None)
            | _ => None
            end)
   | None => mret tt
   end);;
  try_finally
    (b ← get bot;
     match b with
     | Some client => if is_connected client then bot_disconnect w else mret tt
     | None => mret tt
     end)
    (Tortoise_close_connections w).



(** How the two statements [os.kill(os.getpid(), signal.SIGTERM)] and
    [exit(1)] end, one after the other, by the disposition of [SIGTERM]. *)
Definition after_sigterm (disposition : Disposition) : outcome unit :=
  match disposition with
  | SIG_DFL => Killed SIGTERM
  | SIG_IGN => SystemExit 1
  | Handler (Ret _) => SystemExit 1
  | Handler (Raise e) => Raise e
  | Handler (SystemExit code) => SystemExit code
  | Handler (Killed signal) => Killed signal
  end.

(** The handle the watchdog object holds exists, and every other handle is
    cancelled or has run. *)
Definition watchdog_owns (s : State) : Prop :=
  (watchdog s < length (timers s))%nat /\
  forall (h : nat) (t : TimerHandle),
    timers s !! h = Some t -> h <> watchdog s -> pending t = false.

(** A handle that is cancelled or has run. *)
Definition stale (h : nat) (s : State) : Prop :=
  exists t, timers s !! h = Some t /\ pending t = false.

(** ** Concrete records and states *)

(** [template % ()], the formatting of a record logged without arguments
    ([record.args] is the empty tuple). With no argument to convert, [%%]
    gives a percent sign and every other [%] raises: [ValueError] for a
    format that the end of the template cuts short, [TypeError] for a
    conversion that wants an argument. The exception keeps the template
    from the offending [%] on. *)
Fixpoint percent_empty_tuple (template : string) : exn + string :=
  match template with
  | EmptyString => inr EmptyString
  | String c rest =>
      if Ascii.eqb c "%" then
        match rest with
        | String c' rest' =>
            if Ascii.eqb c' "%" then
              match percent_empty_tuple rest' with
              | inr m => inr (String "%" m)
              | inl e => inl e
              end
            else inl (FormatError template)
        | EmptyString => inl (FormatError template)
        end
      else
        match percent_empty_tuple rest with
        | inr m => inr (String c m)
        | inl e => inl e
        end
  end.

(** Records without arguments. *)
Definition no_args : Formatting unit := fun template _ => percent_empty_tuple template.

Module Examples.

(** The module right after import: one watchdog handle armed for 300
    seconds, the counter at 0; the loop running, the client connected,
    [SIGTERM] left at its default. *)
Definition started : State :=
  mkState (Some (mkClient true)) 1000 true [mkTimer 300 false false] 0 0%nat SIG_DFL.

(** The same before [env.bot] is set. *)
Definition no_bot : State :=
  mkState None 1000 true [mkTimer 300 false false] 0 0%nat SIG_DFL.

(** The same with the loop not running. *)
Definition stopped : State :=
  mkState (Some (mkClient true)) 1000 false [mkTimer 300 false false] 0 0%nat SIG_DFL.

Definition record (message : string) : LogRecord unit := mkRecord WARNING message tt.

Definition skipped : LogRecord unit :=
  record "Execution of job run_monitor_task skipped: maximum number of running instances reached (1)".

Definition executed : LogRecord unit :=
  record "Job run_monitor_task executed successfully".

(** A notification coroutine and collaborators that all succeed in time. *)
Definition notice : Awaitable := SendMessage 1000 "WATCHDOG: example".

Definition cooperative : Collaborators := mkCollab Completes None None.

Definition running : LogRecord unit :=
  record ("Running job " +:+ dquote +:+ "run_monitor_task (trigger: interval[0:01:00])" +:+ dquote).

End Examples.

(** ** The counter and the timer over whole runs *)

(** The counter after one record, read off the three tests of [filter]:
    a record that cannot be formatted or matches neither of the first two
    tests leaves it alone. *)
Definition counter_after `{Formatting Args} (c : Z) (record : LogRecord Args) : Z :=
  match formatted record with
  | inl _ => c
  | inr m =>
      if str_in APSCFilter.SKIPPED m then c + 1
      else if str_in APSCFilter.EXECUTED m then 0
      else c
  end.

Definition is_expire (a : Action) : bool :=
  match a with
  | Expire _ => true
  | Heartbeat _ => false
  end.

Definition is_heartbeat (a : Action) : bool := negb (is_expire a).


(** ** logging: loggers, levels and filters *)

Module Logging.

Definition NOTSET : Z := 0.

(** The two filter objects the module creates. *)
Inductive Filter : Type :=
| apsc_filter
| aiohttp_access_filter.

#[global] Instance Filter_eq_dec : EqDecision Filter.
Proof. solve_decision. Defined.

Record Logger : Type := mkLogger {
  level : Z;
  filters : list Filter;
}.

(** [getLogger(name)]: the logger of that name; one that does not exist yet
    is made with level [NOTSET] and without filters. *)
Definition getLogger (name : string) (loggers : gmap string Logger) : Logger :=
  default (mkLogger NOTSET []) (loggers !! name).

(** [getLogger(name).setLevel(lvl)] *)
Definition setLevel (name : string) (lvl : Z) (loggers : gmap string Logger)
  : gmap string Logger :=
  <[name := mkLogger lvl (filters (getLogger name loggers))]> loggers.

(** [getLogger(name).addFilter(f)]: appended unless already there. *)
Definition addFilter (name : string) (f : Filter) (loggers : gmap string Logger)
  : gmap string Logger :=
  let logger := getLogger name loggers in
  <[name := mkLogger (level logger)
                     (if decide (f ∈ filters logger)
                      then filters logger
                      else filters logger ++ [f])]> loggers.

(** The dotted prefixes of a logger name, shortest first. *)
Fixpoint dotted_prefixes (before rest : string) : list string :=
  match rest with
  | EmptyString => []
  | String c rest' =>
      (if Ascii.eqb c "."%char then [before] else [])
      ++ dotted_prefixes (before +:+ String c EmptyString) rest'
  end.

(** The names of the ancestors of a logger, nearest first; the names are
    dotted paths without empty components. *)
Definition ancestors (name : string) : list string :=
  reverse (dotted_prefixes "" name).

(** [getEffectiveLevel()]: the first level that is set on the way from the
    logger to the root, whose level is [root_level]. *)
Fixpoint first_level (loggers : gmap string Logger) (names : list string) (root_level : Z)
  : Z :=
  match names with
  | [] => root_level
  | name :: rest =>
      if level (getLogger name loggers) =? NOTSET
      then first_level loggers rest root_level
      else level (getLogger name loggers)
  end.

Definition getEffectiveLevel
  (root_level : Z) (loggers : gmap string Logger) (name : string) : Z :=
  first_level loggers (name :: ancestors name) root_level.

(** [isEnabledFor(lvl)], with nothing disabled by [logging.disable]
    (the manager's threshold is 0). *)
Definition isEnabledFor
  (root_level : Z) (loggers : gmap string Logger) (name : string) (lvl : Z) : bool :=
  (0 <? lvl) && (getEffectiveLevel root_level loggers name <=? lvl).

(** [f.filter(record)] for the two filter objects. *)
Definition run_filter `{Formatting Args} (f : Filter) (record : LogRecord Args) : M bool :=
  match f with
  | apsc_filter => APSCFilter.filter record
  | aiohttp_access_filter => fun s => (AiohttpAccessFilter.filter record, s, [])
  end.

(** [Filterer.filter(record)]: the filters in order, up to the first that
    rejects the record. *)
Fixpoint Filterer_filter `{Formatting Args} (fs : list Filter) (record : LogRecord Args)
  : M bool :=
  match fs with
  | [] => mret true
  | f :: rest =>
      run_filter f record ≫= (fun ok : bool =>
        if ok then Filterer_filter rest record else mret false)
  end.

(** A record logged on the logger [name], up to the handlers: the result
    says whether the record goes on to them. A record below the threshold
    is dropped before any filter sees it. *)
Definition Logger_log `{Formatting Args}
  (root_level : Z) (loggers : gmap string Logger) (name : string)
  (record : LogRecord Args) : M bool :=
  if isEnabledFor root_level loggers name (levelno record)
  then Filterer_filter (filters (getLogger name loggers)) record
  else mret false.

End Logging.

(** ** The logger configuration made at import *)

Definition logger_level_muted (DEBUG : bool) : Z := if DEBUG then INFO else WARNING.
Definition logger_level_shut_upped (DEBUG : bool) : Z := if DEBUG then ERROR else CRITICAL.

Inductive Statement : Type :=
| SetLevel (name : string) (lvl : Z)
| AddFilter (name : string) (f : Logging.Filter)
| GetLogger (name : string).

(** The module-level statements on loggers, in source order. *)
Definition module_statements (DEBUG : bool) : list Statement :=
  [SetLevel "aiohttp_retry" (logger_level_muted DEBUG);
   SetLevel "asyncio" (logger_level_muted DEBUG);
   SetLevel "telethon" (logger_level_muted DEBUG);
   SetLevel "aiosqlite" (logger_level_muted DEBUG);
   SetLevel "tortoise" (logger_level_muted DEBUG);
   SetLevel "asyncpg" (logger_level_muted DEBUG);
   SetLevel "PIL" (logger_level_muted DEBUG);
   SetLevel "matplotlib" (logger_level_muted DEBUG);
   SetLevel "matplotlib.font_manager" (logger_level_shut_upped DEBUG);
   GetLogger "RSStT.watchdog";
   SetLevel "apscheduler" WARNING;
   SetLevel "apscheduler.executors.default" INFO;
   AddFilter "apscheduler.scheduler" Logging.apsc_filter;
   AddFilter "apscheduler.executors.default" Logging.apsc_filter;
   AddFilter "aiohttp.access" Logging.aiohttp_access_filter].

Definition execute (loggers : gmap string Logging.Logger) (st : Statement)
  : gmap string Logging.Logger :=
  match st with
  | SetLevel name lvl => Logging.setLevel name lvl loggers
  | AddFilter name f => Logging.addFilter name f loggers
  | GetLogger name => <[name := Logging.getLogger name loggers]> loggers
  end.

(** The loggers after the module has been imported. *)
Definition import_module (DEBUG : bool) (loggers : gmap string Logging.Logger)
  : gmap string Logging.Logger :=
  fold_left execute (module_statements DEBUG) loggers.

(** A logger as [getLogger] first makes it. *)
Definition untouched (name : string) (loggers : gmap string Logging.Logger) : Prop :=
  Logging.getLogger name loggers = Logging.mkLogger Logging.NOTSET [].

(** Two statements that differ at most in the level they set, the first
    setting the lower one. *)
Definition lowers (st1 st2 : Statement) : Prop :=
  match st1, st2 with
  | SetLevel n1 l1, SetLevel n2 l2 => n1 = n2 /\ 0 < l1 <= l2
  | AddFilter n1 f1, AddFilter n2 f2 => n1 = n2 /\ f1 = f2
  | GetLogger n1, GetLogger n2 => n1 = n2
  | _, _ => False
  end.

(** What one statement does to the level and to the filters of the logger
    named [n]. *)
Definition level_after (n : string) (lvl : Z) (st : Statement) : Z :=
  match st with
  | SetLevel name v => if decide (name = n) then v else lvl
  | _ => lvl
  end.

Definition filters_after (n : string) (fs : list Logging.Filter) (st : Statement)
  : list Logging.Filter :=
  match st with
  | AddFilter name f =>
      if decide (name = n) then (if decide (f ∈ fs) then fs else fs ++ [f]) else fs
  | _ => fs
  end.

(** The libraries whose loggers the module mutes and that have no child
    with a stricter level. *)
Definition muted_libraries : list string :=
  ["aiohttp_retry"; "asyncio"; "telethon"; "aiosqlite"; "tortoise"; "asyncpg"; "PIL"].

(** ** Properties *)

Section AccessLog.
Context `{Formatting Args}.

(** C4 (amended). The filter first formats the message, [record.msg %
    record.args]. When that gives a message: a record at level at most INFO
    whose message does not contain the marker ['Mozilla'] is suppressed; a
    record above INFO, or one whose message contains the marker, passes.
    When the formatting raises, the filter raises the same exception,
    whatever the level of the record. The result is a function of the
    level and of what the formatting gives alone: the filter takes no
    state and two records that agree on both get the same answer. *)
Theorem access_filter_decision (record : LogRecord Args) :
  (forall m : string,
     formatted record = inr m ->
     (levelno record <= INFO /\ str_in "Mozilla" m = false ->
        AiohttpAccessFilter.filter record = Ret false) /\
     (levelno record > INFO \/ str_in "Mozilla" m = true ->
        AiohttpAccessFilter.filter record = Ret true)) /\
  (forall e : exn,
     formatted record = inl e ->
     AiohttpAccessFilter.filter record = Raise e) /\
  (forall record' : LogRecord Args,
     levelno record' = levelno record ->
     formatted record' = formatted record ->
     AiohttpAccessFilter.filter record' = AiohttpAccessFilter.filter record).
Proof.
  unfold AiohttpAccessFilter.filter. split; [|split].
  - intros m Hm. rewrite Hm. split.
    + intros [Hlvl Hmark]. rewrite Hmark.
      apply Z.leb_le in Hlvl. now rewrite Hlvl.
    + intros [Hlvl | Hmark].
      * apply Z.gt_lt, Z.leb_gt in Hlvl. now rewrite Hlvl.
      * rewrite Hmark. now rewrite andb_false_r.
  - intros e He. now rewrite He.
  - intros record' Hlvl Hfmt. now rewrite Hfmt, Hlvl.
Qed.

End AccessLog.

Lemma access_filter_decision_witness :
  AiohttpAccessFilter.filter (H := no_args) (mkRecord INFO "GET /health" tt) = Ret false /\
  AiohttpAccessFilter.filter (H := no_args) (mkRecord INFO "GET / Mozilla/5.0" tt) = Ret true /\
  AiohttpAccessFilter.filter (H := no_args) (mkRecord INFO "GET /a%20b Mozilla/5.0" tt)
    = Raise (FormatError "%20b Mozilla/5.0").
Proof.
  pose proof (access_filter_decision (H := no_args) (mkRecord INFO "GET /health" tt))
    as [Hquiet _].
  pose proof (access_filter_decision (H := no_args) (mkRecord INFO "GET / Mozilla/5.0" tt))
    as [Hbrowser _].
  pose proof (access_filter_decision (H := no_args)
                (mkRecord INFO "GET /a%20b Mozilla/5.0" tt)) as [_ [Hraise _]].
  split; [|split].
  - apply (Hquiet "GET /health" eq_refl). split; [vm_compute; discriminate | reflexivity].
  - apply (Hbrowser "GET / Mozilla/5.0" eq_refl). right. reflexivity.
  - apply Hraise. reflexivity.
Defined.

(** C4, as stated, fails: a record above INFO whose message ends in a
    percent sign, logged without arguments, does not pass; the formatting
    of its message raises ([ValueError: incomplete format]) and so does the
    filter. The same happens to a record that holds the marker. *)
Lemma access_filter_decision_counterexample :
  AiohttpAccessFilter.filter (H := no_args) (mkRecord WARNING "disk usage at 100%" tt)
    = Raise (FormatError "%") /\
  AiohttpAccessFilter.filter (H := no_args) (mkRecord WARNING "disk usage at 100%" tt)
    <> Ret true /\
  AiohttpAccessFilter.filter (H := no_args) (mkRecord INFO "Mozilla/5.0 100%" tt)
    <> Ret true.
Proof. repeat split; try reflexivity; discriminate. Qed.

(** ** The scheduler filter, one record at a time *)

Section SchedulerFilter.
Context `{Formatting Args}.

(** The first branch of [filter], case by case. *)
Lemma filter_skipped (record : LogRecord Args) (m : string) (s : State) :
  formatted record = inr m ->
  str_in APSCFilter.SKIPPED m = true ->
  APSCFilter.filter record s =
    let c := count s + 1 in
    let s1 := set_count c s in
    if negb (c =? 0) && (c mod 5 =? 0) then
      match bot s with
      | None =>
          (Raise (AttributeError "'NoneType' object has no attribute 'send_message'"),
           s1, [])
      | Some _ =>
          if 15 <=? c then
            if loop_is_running s
            then (Ret true, s1,
                  [exiting c; CreateTask (ExitHandler (Some (notification s c m)))])
            else (SystemExit 1, s1, [exiting c])
          else (Ret true, s1, [CreateTask (RunAwaitable (notification s c m))])
      end
    else (Ret true, s1, []).
Proof.
  intros Hm Hskip. unfold APSCFilter.filter. rewrite Hm. cbn.
  unfold mbind, M_bind, mret, M_ret. cbn. rewrite Hskip. cbn.
  destruct (negb (count s + 1 =? 0) && ((count s + 1) mod 5 =? 0)); cbn; [|done].
  unfold bot_send_message, mbind, M_bind, get. cbn.
  destruct (bot s); cbn; [|done].
  destruct (15 <=? count s + 1); cbn; [|done].
  unfold shutdown, mbind, M_bind, get. cbn.
  destruct (loop_is_running s); done.
Qed.

Lemma fine_eq (d : Z) (s : State) :
  Watchdog.fine d s =
    (Ret tt, rearmed d s, [CancelTimer (watchdog s); CallLater (length (timers s)) d]).
Proof.
  unfold Watchdog.fine, Loop.cancel, Loop.call_later, rearmed.
  unfold mbind, M_bind, mret, M_ret, get, modify, emit, set_timers, set_watchdog. cbn.
  now rewrite length_alter.
Qed.

(** The second branch of [filter]. *)
Lemma filter_executed (record : LogRecord Args) (m : string) (s : State) :
  formatted record = inr m ->
  str_in APSCFilter.SKIPPED m = false ->
  str_in APSCFilter.EXECUTED m = true ->
  APSCFilter.filter record s =
    (Ret false, rearmed Watchdog.fine_delay (set_count 0 s),
     [CancelTimer (watchdog s); CallLater (length (timers s)) Watchdog.fine_delay]).
Proof.
  intros Hm Hskip Hexec. unfold APSCFilter.filter. rewrite Hm.
  unfold mbind at 1. unfold M_bind at 1. cbn. rewrite Hskip, Hexec.
  unfold mbind at 1. unfold M_bind at 1. cbn.
  unfold mbind at 1. unfold M_bind at 1. rewrite fine_eq. reflexivity.
Qed.

(** The third branch and the fall-through of [filter]. *)
Lemma filter_unmatched (record : LogRecord Args) (m : string) (s : State) :
  formatted record = inr m ->
  str_in APSCFilter.SKIPPED m = false ->
  str_in APSCFilter.EXECUTED m = false ->
  APSCFilter.filter record s = (Ret (negb (str_in APSCFilter.RUNNING m)), s, []).
Proof.
  intros Hm Hskip Hexec. unfold APSCFilter.filter. rewrite Hm.
  unfold mbind, M_bind. cbn. rewrite Hskip, Hexec.
  now destruct (str_in APSCFilter.RUNNING m).
Qed.

Lemma filter_unformatted (record : LogRecord Args) (e : exn) (s : State) :
  formatted record = inl e ->
  APSCFilter.filter record s = (Raise e, s, []).
Proof.
  intros He. unfold APSCFilter.filter. now rewrite He.
Qed.

(** The handles after [watchdog.fine(delay)]. *)
Lemma rearmed_new (d : Z) (s : State) :
  timers (rearmed d s) !! watchdog (rearmed d s) = Some (mkTimer d false false).
Proof.
  unfold rearmed. cbn.
  rewrite lookup_app_r by (rewrite length_alter; lia).
  rewrite length_alter. now replace (_ - _)%nat with 0%nat by lia.
Qed.

Lemma rearmed_old (d : Z) (s : State) (h : nat) (t : TimerHandle) :
  timers s !! h = Some t ->
  timers (rearmed d s) !! h =
    Some (if decide (h = watchdog s) then TimerHandle_cancel t else t).
Proof.
  intros Ht. unfold rearmed. cbn.
  rewrite lookup_app_l by (rewrite length_alter; eauto using lookup_lt_Some).
  destruct (decide (h = watchdog s)) as [->|Hne].
  - now rewrite list_lookup_alter_eq, Ht.
  - now rewrite list_lookup_alter_ne by congruence.
Qed.

(** C2 (amended). A record whose formatted message contains
    [' executed successfully'] (with the leading space of the source) and
    not the skipped-instance text is suppressed: the filter returns
    [False], sets the counter to 0 and re-arms the watchdog with the
    15-minute delay, which is longer than the 5 minutes it is armed with
    at start: the current handle is cancelled and a fresh pending handle
    with delay 900 becomes current. These two loop calls are all the filter
    emits, so no notification is sent, whatever the counter was. *)
Theorem executed_record_resets (record : LogRecord Args) (m : string) (s : State) :
  formatted record = inr m ->
  str_in "skipped: maximum number of running instances reached" m = false ->
  str_in " executed successfully" m = true ->
  exists s',
    APSCFilter.filter record s =
      (Ret false, s', [CancelTimer (watchdog s); CallLater (watchdog s') (15 * 60)]) /\
    count s' = 0 /\
    watchdog s' = length (timers s) /\
    timers s' !! watchdog s' = Some (mkTimer (15 * 60) false false) /\
    (forall h t, timers s !! h = Some t ->
       timers s' !! h = Some (if decide (h = watchdog s) then TimerHandle_cancel t else t)) /\
    Watchdog.init_delay < 15 * 60 /\
    notified (Ret false, [CancelTimer (watchdog s); CallLater (watchdog s') (15 * 60)]) = false /\
    bot s' = bot s /\ loop_is_running s' = loop_is_running s.
Proof.
  intros Hm Hskip Hexec.
  exists (rearmed Watchdog.fine_delay (set_count 0 s)).
  split; [exact (filter_executed record m s Hm Hskip Hexec)|].
  split; [reflexivity|]. split; [reflexivity|].
  split; [apply rearmed_new|].
  split; [intros h t Ht; now apply (rearmed_old _ (set_count 0 s))|].
  split; [reflexivity|]. now repeat split.
Qed.

(** C3 (amended). A record whose formatted message matches neither of the
    first two tests and contains [Running job], a space, a double quote and
    [run_monitor_task] (the third test of the source) is suppressed, and a record that matches none of the three tests passes;
    in both cases the state is left as it was and nothing is emitted. *)
Theorem running_record_suppressed (record : LogRecord Args) (m : string) (s : State) :
  formatted record = inr m ->
  str_in "skipped: maximum number of running instances reached" m = false ->
  str_in " executed successfully" m = false ->
  (str_in ("Running job " +:+ dquote +:+ "run_monitor_task") m = true ->
     APSCFilter.filter record s = (Ret false, s, [])) /\
  (str_in ("Running job " +:+ dquote +:+ "run_monitor_task") m = false ->
     APSCFilter.filter record s = (Ret true, s, [])).
Proof.
  intros Hm Hskip Hexec.
  pose proof (filter_unmatched record m s Hm Hskip Hexec) as Hf.
  split; intros Hrun; rewrite Hf; unfold APSCFilter.RUNNING; now rewrite Hrun.
Qed.

Lemma exit_bot_eq (d : Z) (s : State) :
  Watchdog._exit_bot d s =
    let msg := "Never heard from the bot for " +:+ str d +:+ " seconds. Exiting..." in
    let coro := match bot s with
                | Some _ => Some (SendMessage (MANAGER s) ("WATCHDOG: " +:+ msg))
                | None => None
                end in
    if loop_is_running s
    then (Ret tt, s, [Critical msg None; CreateTask (ExitHandler coro)])
    else (SystemExit 1, s, [Critical msg None]).
Proof.
  unfold Watchdog._exit_bot, shutdown, bot_send_message, critical.
  unfold mbind, M_bind, mret, M_ret, get, emit, exit, Loop.create_task. cbn.
  destruct (bot s) eqn:Hbot; cbn; rewrite ?Hbot; cbn;
    destruct (loop_is_running s) eqn:Hrun; cbn; rewrite ?Hrun; reflexivity.
Qed.

(** C10. With [env.bot] unset, a skipped-instance record that brings the
    counter to a positive multiple of 5 makes the filter raise
    [AttributeError] (the counter keeps the new value and nothing is
    emitted), whereas [_exit_bot] tests for [None] and calls [shutdown]
    without a prerequisite: the teardown task is created with [None] when
    the loop runs, and the process exits otherwise. *)
Theorem absent_bot_filter_raises (record : LogRecord Args) (m : string) (s : State) :
  bot s = None ->
  formatted record = inr m ->
  str_in "skipped: maximum number of running instances reached" m = true ->
  0 < count s + 1 ->
  (count s + 1) mod 5 = 0 ->
  APSCFilter.filter record s =
    (Raise (AttributeError "'NoneType' object has no attribute 'send_message'"),
     set_count (count s + 1) s, []) /\
  forall d : Z,
    Watchdog._exit_bot d s =
      let msg := "Never heard from the bot for " +:+ str d +:+ " seconds. Exiting..." in
      if loop_is_running s
      then (Ret tt, s, [Critical msg None; CreateTask (ExitHandler None)])
      else (SystemExit 1, s, [Critical msg None]).
Proof.
  intros Hbot Hm Hskip Hpos Hmod. split.
  - rewrite (filter_skipped record m s Hm Hskip). cbn zeta.
    rewrite Hbot.
    assert ((count s + 1 =? 0) = false) as -> by (apply Z.eqb_neq; lia).
    now rewrite Hmod.
  - intros d. rewrite exit_bot_eq. cbn zeta. now rewrite Hbot.
Qed.

(** A skipped-instance record with the client set and the loop running. *)
Lemma filter_skipped_present (record : LogRecord Args) (m : string) (s : State) :
  is_Some (bot s) ->
  loop_is_running s = true ->
  0 <= count s ->
  formatted record = inr m ->
  str_in APSCFilter.SKIPPED m = true ->
  exists evs,
    APSCFilter.filter record s = (Ret true, set_count (count s + 1) s, evs) /\
    (notified (Ret true, evs) = true <-> (count s + 1) mod 5 = 0) /\
    (shutdown_initiated (Ret true, evs) = true <->
       (count s + 1) mod 5 = 0 /\ 15 <= count s + 1).
Proof.
  intros [c Hbot] Hrun Hpos Hm Hskip.
  rewrite (filter_skipped record m s Hm Hskip). cbn zeta.
  rewrite Hbot, Hrun.
  assert ((count s + 1 =? 0) = false) as -> by (apply Z.eqb_neq; lia).
  cbn [negb andb].
  destruct (Z.eqb_spec ((count s + 1) mod 5) 0) as [Hmod | Hmod].
  - destruct (Z.leb_spec 15 (count s + 1)) as [Hge | Hlt].
    + eexists. split; [reflexivity|]. cbn. split; split; auto.
    + eexists. split; [reflexivity|]. cbn. split; split; auto.
      * intros; discriminate.
      * intros [_ ?]; lia.
  - eexists. split; [reflexivity|]. cbn. split; split; try discriminate; tauto.
Qed.

Lemma feed_skipped (records : list (LogRecord Args)) :
  forall s : State,
    is_Some (bot s) ->
    loop_is_running s = true ->
    0 <= count s ->
    Forall failure_signal records ->
    count (feed records s).2 = count s + Z.of_nat (length records) /\
    forall (n : nat) (r : outcome bool * list Event),
      (feed records s).1 !! n = Some r ->
      r.1 = Ret true /\
      (notified r = true <-> (count s + Z.of_nat n + 1) mod 5 = 0) /\
      (shutdown_initiated r = true <->
         (count s + Z.of_nat n + 1) mod 5 = 0 /\ 15 <= count s + Z.of_nat n + 1).
Proof.
  induction records as [|record rest IH]; intros s Hbot Hrun Hpos Hall.
  - cbn. split; [lia|]. intros n r Hr. discriminate.
  - inversion Hall as [|? ? [m [Hm Hskip]] Hrest]; subst.
    destruct (filter_skipped_present record m s Hbot Hrun Hpos Hm Hskip)
      as (evs & Hf & Hnote & Hshut).
    cbn [feed]. rewrite Hf.
    specialize (IH (set_count (count s + 1) s) Hbot Hrun ltac:(cbn; lia) Hrest).
    destruct (feed rest (set_count (count s + 1) s)) as [results s2] eqn:Hfeed.
    cbn in IH. destruct IH as [Hcount Hnth]. cbn. split; [lia|].
    intros [|n] r Hr; cbn in Hr.
    + injection Hr as <-. cbn [fst].
      replace (count s + Z.of_nat 0 + 1) with (count s + 1) by lia. auto.
    + replace (count s + Z.of_nat (S n) + 1) with (count s + 1 + Z.of_nat n + 1) by lia.
      now apply Hnth.
Qed.

Lemma feed_length (records : list (LogRecord Args)) :
  forall s : State,
    (forall r, r ∈ (feed records s).1 -> r.1 = Ret true) ->
    length (feed records s).1 = length records.
Proof.
  induction records as [|record rest IH]; intros s Hret; [reflexivity|].
  cbn [feed] in *.
  destruct (APSCFilter.filter record s) as [[o s1] t] eqn:Hf.
  destruct o as [b|e|c|k].
  - destruct (feed rest s1) as [results s2] eqn:Hfeed. cbn in *.
    f_equal. specialize (IH s1). rewrite Hfeed in IH. apply IH.
    intros r Hr. apply Hret. now right.
  - specialize (Hret (Raise e, t) ltac:(destruct (feed rest s1); left)). discriminate.
  - specialize (Hret (SystemExit c, t) ltac:(left)). discriminate.
  - specialize (Hret (Killed k, t) ltac:(left)). discriminate.
Qed.

(** What one call of [filter] does to the counter, for any record. *)
Lemma filter_counter (record : LogRecord Args) (s : State) :
  let s' := (APSCFilter.filter record s).1.2 in
  (count s' = count s + 1 /\ failure_signal record) \/
  (count s' = 0 /\ heartbeat_signal record) \/
  count s' = count s.
Proof.
  cbn zeta. destruct (formatted record) as [e | m] eqn:Hm.
  - rewrite (filter_unformatted record e s Hm). now right; right.
  - destruct (str_in APSCFilter.SKIPPED m) eqn:Hskip.
    + left. split; [|now exists m].
      rewrite (filter_skipped record m s Hm Hskip). cbn zeta.
      destruct (_ && _); [|reflexivity].
      destruct (bot s); [|reflexivity].
      destruct (15 <=? _); [|reflexivity].
      now destruct (loop_is_running s).
    + destruct (str_in APSCFilter.EXECUTED m) eqn:Hexec.
      * right; left. split; [|now exists m].
        now rewrite (filter_executed record m s Hm Hskip Hexec).
      * right; right. now rewrite (filter_unmatched record m s Hm Hskip Hexec).
Qed.

(** The watchdog actions and the teardown leave the counter alone. *)
Lemma perform_counter (a : Action) (s : State) :
  count (perform a s).1.2 = count s.
Proof.
  destruct a as [d | h]; cbn [perform].
  - now rewrite fine_eq.
  - unfold expire, mbind, M_bind, get, modify. cbn.
    destruct (timers s !! h) as [t|]; [|reflexivity]. cbn.
    rewrite exit_bot_eq. cbn.
    now destruct (loop_is_running s).
Qed.

(** C1 (amended). With the client set and the loop running, feed the
    filter [N] consecutive skipped-instance records, starting from counter
    0. Then the counter is [N]; every call returns [True]; the [k]-th call
    hands an operator notification to the loop iff [k] is a (positive)
    multiple of 5, and initiates a shutdown iff [k] is a multiple of 5 with
    [k >= 15], so that the run as a whole has initiated a shutdown iff
    [N >= 15]. For any record and any state, one call of the filter leaves
    a non-negative counter non-negative and either adds 1 to it (on a
    skipped-instance record), sets it to 0 (on an executed-successfully
    record) or leaves it as it is; the watchdog actions do not touch it. *)
Theorem escalation_run (records : list (LogRecord Args)) (s : State) :
  count s = 0 ->
  is_Some (bot s) ->
  loop_is_running s = true ->
  Forall failure_signal records ->
  let results := (feed records s).1 in
  let N := Z.of_nat (length records) in
  count (feed records s).2 = N /\
  length results = length records /\
  (forall (n : nat) (r : outcome bool * list Event),
     results !! n = Some r ->
     r.1 = Ret true /\
     (notified r = true <-> (Z.of_nat n + 1) mod 5 = 0) /\
     (shutdown_initiated r = true <->
        (Z.of_nat n + 1) mod 5 = 0 /\ 15 <= Z.of_nat n + 1)) /\
  (Exists (fun r => shutdown_initiated r = true) results <-> 15 <= N) /\
  (forall (record : LogRecord Args) (s0 : State),
     let s1 := (APSCFilter.filter record s0).1.2 in
     (0 <= count s0 -> 0 <= count s1) /\
     ((count s1 = count s0 + 1 /\ failure_signal record) \/
      (count s1 = 0 /\ heartbeat_signal record) \/
      count s1 = count s0)) /\
  (forall (a : Action) (s0 : State), count (perform a s0).1.2 = count s0).
Proof.
  intros Hzero Hbot Hrun Hall. cbn zeta.
  destruct (feed_skipped records s Hbot Hrun ltac:(lia) Hall) as [Hcount Hnth].
  rewrite Hzero in Hcount, Hnth. cbn in Hcount.
  assert (Hlen : length (feed records s).1 = length records).
  { apply feed_length. intros r Hr.
    apply list_elem_of_lookup in Hr as [n Hn]. now apply Hnth in Hn. }
  split; [exact Hcount|]. split; [exact Hlen|].
  split; [exact Hnth|]. split; [|split].
  - rewrite Exists_exists. split.
    + intros (r & Hr & Hshut).
      apply list_elem_of_lookup in Hr as [n Hn].
      pose proof (lookup_lt_Some _ _ _ Hn) as Hlt.
      apply Hnth in Hn as (_ & _ & Hiff). apply Hiff in Hshut. lia.
    + intros Hge.
      destruct (lookup_lt_is_Some_2 (feed records s).1 14) as [r Hr]; [lia|].
      exists r. split; [eapply list_elem_of_lookup_2, Hr|].
      apply Hnth in Hr as (_ & _ & Hiff). apply Hiff. split; [reflexivity | lia].
  - intros record s0. cbn zeta.
    pose proof (filter_counter record s0) as Hc. cbn zeta in Hc.
    split; [|exact Hc]. intros Hpos. destruct Hc as [[-> _] | [[-> _] | ->]]; lia.
  - exact perform_counter.
Qed.

End SchedulerFilter.

(** ** The scheduler filter on concrete records *)

Lemma skipped_is_failure_signal : failure_signal (H := no_args) Examples.skipped.
Proof. eexists. split; reflexivity. Defined.

(** Fifteen skipped-instance records from the state after import: the
    counter reaches 15, the fifth call creates the notification task and
    the fifteenth the teardown task. *)
Lemma escalation_run_witness :
  count (feed (H := no_args) (replicate 15 Examples.skipped) Examples.started).2 = 15 /\
  (Exists (fun r => shutdown_initiated r = true)
          (feed (H := no_args) (replicate 15 Examples.skipped) Examples.started).1
   <-> 15 <= 15).
Proof.
  pose proof (escalation_run (H := no_args) (replicate 15 Examples.skipped) Examples.started
                eq_refl (ex_intro _ _ eq_refl) eq_refl
                (Forall_replicate _ 15%nat _ skipped_is_failure_signal))
    as (Hcount & _ & _ & Hshut & _).
  split; [exact Hcount | exact Hshut].
Defined.

(** C1, as stated, fails. With the client set and the loop running, the
    sixteenth consecutive skipped-instance record initiates no shutdown
    although 16 >= 15 (the fifteenth did). With [env.bot] unset, the fifth
    record dispatches no notification (the call raises), and none of
    fifteen records initiates a shutdown. With the loop not running, the
    fifteenth record exits at once and its notification coroutine is never
    handed to the loop. *)
Lemma escalation_run_counterexample :
  shutdown_initiated <$>
    (feed (H := no_args) (replicate 16 Examples.skipped) Examples.started).1 !! 15%nat
    = Some false /\
  shutdown_initiated <$>
    (feed (H := no_args) (replicate 16 Examples.skipped) Examples.started).1 !! 14%nat
    = Some true /\
  (feed (H := no_args) (replicate 5 Examples.skipped) Examples.no_bot).1 !! 4%nat
    = Some (Raise (AttributeError "'NoneType' object has no attribute 'send_message'"), []) /\
  notified <$>
    (feed (H := no_args) (replicate 5 Examples.skipped) Examples.no_bot).1 !! 4%nat
    = Some false /\
  forallb (fun r => negb (shutdown_initiated r))
    (feed (H := no_args) (replicate 15 Examples.skipped) Examples.no_bot).1 = true /\
  (feed (H := no_args) (replicate 15 Examples.skipped) Examples.stopped).1 !! 14%nat
    = Some (SystemExit 1, [exiting 15]) /\
  notified <$>
    (feed (H := no_args) (replicate 15 Examples.skipped) Examples.stopped).1 !! 14%nat
    = Some false.
Proof. vm_compute. repeat split. Qed.

Lemma executed_record_resets_witness :
  exists s',
    APSCFilter.filter (H := no_args) Examples.executed (set_count 3 Examples.started) =
      (Ret false, s', [CancelTimer 0; CallLater 1 900]) /\
    count s' = 0.
Proof.
  destruct (executed_record_resets (H := no_args) Examples.executed
              "Job run_monitor_task executed successfully"
              (set_count 3 Examples.started) eq_refl eq_refl eq_refl)
    as (s' & Hf & Hcount & Hwd & _).
  exists s'. split; [|exact Hcount].
  rewrite Hf, Hwd. reflexivity.
Defined.

(** C2, as stated, fails: a message that contains [executed successfully]
    without a space before it is not recognised. The record passes, the
    counter keeps its value 3 and the watchdog is not re-armed. *)
Lemma executed_record_counterexample :
  str_in "executed successfully" "executed successfully (2 jobs)" = true /\
  str_in "skipped: maximum number of running instances reached"
         "executed successfully (2 jobs)" = false /\
  APSCFilter.filter (H := no_args) (Examples.record "executed successfully (2 jobs)")
                    (set_count 3 Examples.started)
    = (Ret true, set_count 3 Examples.started, []).
Proof. vm_compute. repeat split. Qed.

Lemma running_record_suppressed_witness :
  APSCFilter.filter (H := no_args) Examples.running Examples.started
    = (Ret false, Examples.started, []) /\
  APSCFilter.filter (H := no_args) (Examples.record "Scheduler started") Examples.started
    = (Ret true, Examples.started, []).
Proof.
  split.
  - apply (running_record_suppressed (H := no_args) Examples.running
             ("Running job " +:+ dquote +:+ "run_monitor_task (trigger: interval[0:01:00])"
              +:+ dquote)
             Examples.started eq_refl eq_refl eq_refl).
    reflexivity.
  - apply (running_record_suppressed (H := no_args) (Examples.record "Scheduler started")
             "Scheduler started" Examples.started eq_refl eq_refl eq_refl).
    reflexivity.
Defined.

(** C3, as stated, fails: a message that contains [Running job] and a space
    but announces another job matches none of the tests of the source and
    passes. *)
Lemma running_record_counterexample :
  str_in "Running job " "Running job cleanup (trigger: cron)" = true /\
  str_in "skipped: maximum number of running instances reached"
         "Running job cleanup (trigger: cron)" = false /\
  str_in "executed successfully" "Running job cleanup (trigger: cron)" = false /\
  APSCFilter.filter (H := no_args) (Examples.record "Running job cleanup (trigger: cron)")
                    Examples.started
    = (Ret true, Examples.started, []).
Proof. vm_compute. repeat split. Qed.

Lemma absent_bot_filter_raises_witness :
  APSCFilter.filter (H := no_args) Examples.skipped (set_count 4 Examples.no_bot) =
    (Raise (AttributeError "'NoneType' object has no attribute 'send_message'"),
     set_count 5 Examples.no_bot, []) /\
  Watchdog._exit_bot 300 (set_count 4 Examples.no_bot) =
    (Ret tt, set_count 4 Examples.no_bot,
     [Critical "Never heard from the bot for 300 seconds. Exiting..." None;
      CreateTask (ExitHandler None)]).
Proof.
  destruct (absent_bot_filter_raises (H := no_args) Examples.skipped
              "Execution of job run_monitor_task skipped: maximum number of running instances reached (1)"
              (set_count 4 Examples.no_bot) eq_refl eq_refl eq_refl eq_refl eq_refl)
    as [Hfilter Hexit].
  split; [exact Hfilter | exact (Hexit 300)].
Defined.

(** ** The teardown *)

Section Teardown.
Variables (w : Collaborators) (s : State).

(** The teardown is its steps, then the outer handler if one of them
    raised, then [exit(1)]. *)
Lemma exit_handler_split (w0 : Collaborators) (prerequisite : option Awaitable) (s0 : State) :
  exit_handler w0 prerequisite s0 =
    match teardown_steps w0 prerequisite s0 with
    | (Ret _, s1, t1) => (SystemExit 1, s1, t1)
    | (Raise e, s1, t1) =>
        (after_sigterm (sigterm s1), s1,
         t1 ++ [Critical "Failed to gracefully exit:" (Some e); Kill SIGTERM])
    | (SystemExit code, s1, t1) => (SystemExit code, s1, t1)
    | (Killed signal, s1, t1) => (Killed signal, s1, t1)
    end.
Proof.
  change (exit_handler w0 prerequisite s0)
    with (mbind (M := M) (A := unit) (B := unit) (fun _ => exit 1)
            (try_except (teardown_steps w0 prerequisite)
               (fun e => Some (critical "Failed to gracefully exit:" (Some e);;
                               os_kill SIGTERM))) s0).
  unfold mbind at 1, M_bind at 1, try_except at 1.
  destruct (teardown_steps w0 prerequisite s0) as [[[u|e|code|signal] s1] t1];
    try (cbn; rewrite ?app_nil_r; reflexivity).
  destruct s1 as [b m r ts c h [| |[u|e'|code|signal]]];
    cbv -[app]; cbn [app]; rewrite ?app_nil_r; reflexivity.
Qed.

(** Unfolds one run of the teardown on concrete collaborators. *)
Ltac teardown_cases :=
  rewrite ?exit_handler_split;
  destruct s as [[[connected]|] manager running_ handles counter current disposition];
  destruct w as [[| [] |] [e1|] [e2|]];
  cbn; try reflexivity; try discriminate.

(** The exact trace of the teardown whenever the wait for the prerequisite
    settles. *)
Lemma exit_handler_trace (prerequisite : option Awaitable) :
  prerequisite_settles w prerequisite = true ->
  (exit_handler w prerequisite s).2 =
    match prerequisite with
    | None => []
    | Some p =>
        WaitFor p 10 ::
        match prerequisite_run w with
        | StillPending =>
            [CancelAwaitable p;
             Critical "Failed to gracefully exit: prerequisite timed out" None]
        | Fails TimeoutError =>
            [Critical "Failed to gracefully exit: prerequisite timed out" None]
        | _ => []
        end
    end
    ++ (if bot_connected s then [Disconnect] else [])
    ++ [CloseConnections]
    ++ match close_connections_run w with
       | Some e => [Critical "Failed to gracefully exit:" (Some e); Kill SIGTERM]
       | None =>
           match (if bot_connected s then disconnect_run w else None) with
           | Some e => [Critical "Failed to gracefully exit:" (Some e); Kill SIGTERM]
           | None => []
           end
       end.
Proof.
  unfold prerequisite_settles, bot_connected.
  destruct prerequisite as [p|]; teardown_cases;
    destruct connected; reflexivity.
Qed.


(** C5 (amended). The steps of the teardown, in order, whenever the wait
    for the prerequisite settles (no prerequisite, completed, or timed
    out): a supplied prerequisite is awaited first with timeout 10, and a
    timeout is logged critical and followed by the remaining steps; the
    client is disconnected if it is set and connected; then
    [Tortoise.close_connections()] runs, also when the disconnect raised;
    and if the disconnect or the close raised, the error is logged critical
    and [SIGTERM] is sent to the process itself, after both steps. *)
Theorem teardown_sequence (prerequisite : option Awaitable) :
  prerequisite_settles w prerequisite = true ->
  (exit_handler w prerequisite s).2 =
    match prerequisite with
    | None => []
    | Some p =>
        WaitFor p 10 ::
        match prerequisite_run w with
        | StillPending =>
            [CancelAwaitable p;
             Critical "Failed to gracefully exit: prerequisite timed out" None]
        | Fails TimeoutError =>
            [Critical "Failed to gracefully exit: prerequisite timed out" None]
        | _ => []
        end
    end
    ++ (if bot_connected s then [Disconnect] else [])
    ++ [CloseConnections]
    ++ match close_connections_run w with
       | Some e => [Critical "Failed to gracefully exit:" (Some e); Kill SIGTERM]
       | None =>
           match (if bot_connected s then disconnect_run w else None) with
           | Some e => [Critical "Failed to gracefully exit:" (Some e); Kill SIGTERM]
           | None => []
           end
       end.
Proof. exact (exit_handler_trace prerequisite). Qed.

(** C9 (amended). When the wait for the prerequisite times out,
    [asyncio.wait_for] cancels the prerequisite before it raises
    [TimeoutError]; the timeout is logged critical and the teardown goes on
    exactly as a teardown without prerequisite. A prerequisite is cancelled
    in no other case. *)
Theorem timeout_cancels_prerequisite (p : Awaitable) :
  prerequisite_run w = StillPending ->
  (exit_handler w (Some p) s).2 =
    [WaitFor p 10; CancelAwaitable p;
     Critical "Failed to gracefully exit: prerequisite timed out" None]
    ++ (exit_handler w None s).2 /\
  (exit_handler w (Some p) s).1 = (exit_handler w None s).1 /\
  forall (w' : Collaborators) (prerequisite : option Awaitable) (a : Awaitable),
    CancelAwaitable a ∈ (exit_handler w' prerequisite s).2 ->
    prerequisite = Some a /\ prerequisite_run w' = StillPending.
Proof.
  intros Hrun. split; [|split].
  - rewrite !exit_handler_trace by (unfold prerequisite_settles; now rewrite ?Hrun).
    now rewrite Hrun.
  - revert Hrun. teardown_cases; destruct connected; reflexivity.
  - clear Hrun. intros w' prerequisite a. rewrite exit_handler_split.
    destruct s as [[[connected]|] manager running_ handles counter current disposition];
      destruct w' as [[| [] |] [e1|] [e2|]];
      destruct prerequisite as [p'|]; try destruct connected;
      match goal with
      | |- _ ∈ ?evs -> _ => let l := eval vm_compute in evs in change evs with l
      end;
      rewrite ?elem_of_cons, elem_of_nil; intros Hin; decompose [or] Hin;
      try discriminate; try contradiction;
      match goal with
      | Heq : CancelAwaitable _ = CancelAwaitable _ |- _ => injection Heq as ->
      end; auto.
Qed.

End Teardown.



Lemma teardown_sequence_witness :
  (exit_handler (mkCollab StillPending (Some (Error "ConnectionResetError")) None)
                (Some Examples.notice) Examples.started).2 =
    [WaitFor Examples.notice 10; CancelAwaitable Examples.notice;
     Critical "Failed to gracefully exit: prerequisite timed out" None;
     Disconnect; CloseConnections;
     Critical "Failed to gracefully exit:" (Some (Error "ConnectionResetError"));
     Kill SIGTERM].
Proof.
  exact (teardown_sequence (mkCollab StillPending (Some (Error "ConnectionResetError")) None)
           Examples.started (Some Examples.notice) eq_refl).
Defined.

(** C5, as stated, fails: when the awaited prerequisite raises anything but
    a timeout, the teardown neither disconnects the client nor closes the
    storage connections; it logs the error and sends [SIGTERM]. *)
Lemma teardown_sequence_counterexample :
  (exit_handler (mkCollab (Fails (Error "ConnectionError")) None None)
                (Some Examples.notice) Examples.started).2 =
    [WaitFor Examples.notice 10;
     Critical "Failed to gracefully exit:" (Some (Error "ConnectionError"));
     Kill SIGTERM] /\
  CloseConnections ∉
    (exit_handler (mkCollab (Fails (Error "ConnectionError")) None None)
                  (Some Examples.notice) Examples.started).2.
Proof.
  split; [reflexivity|].
  change (CloseConnections ∉
            [WaitFor Examples.notice 10;
             Critical "Failed to gracefully exit:" (Some (Error "ConnectionError"));
             Kill SIGTERM]).
  rewrite !not_elem_of_cons. repeat split; try discriminate. apply not_elem_of_nil.
Qed.

Lemma timeout_cancels_prerequisite_witness :
  (exit_handler (mkCollab StillPending None None) (Some Examples.notice) Examples.started).2 =
    [WaitFor Examples.notice 10; CancelAwaitable Examples.notice;
     Critical "Failed to gracefully exit: prerequisite timed out" None]
    ++ (exit_handler (mkCollab StillPending None None) None Examples.started).2.
Proof.
  exact (proj1 (timeout_cancels_prerequisite (mkCollab StillPending None None)
                  Examples.started Examples.notice eq_refl)).
Defined.

(** C9, as stated, fails: on a timeout the trace of the teardown holds the
    cancellation of the prerequisite, made by [asyncio.wait_for] before the
    [TimeoutError] reaches the handler. *)
Lemma timeout_cancels_prerequisite_counterexample :
  (exit_handler (mkCollab StillPending None None) (Some Examples.notice) Examples.started).2 =
    [WaitFor Examples.notice 10; CancelAwaitable Examples.notice;
     Critical "Failed to gracefully exit: prerequisite timed out" None;
     Disconnect; CloseConnections] /\
  CancelAwaitable Examples.notice ∈
    (exit_handler (mkCollab StillPending None None) (Some Examples.notice) Examples.started).2.
Proof.
  split; [reflexivity|].
  change (CancelAwaitable Examples.notice ∈
            [WaitFor Examples.notice 10; CancelAwaitable Examples.notice;
             Critical "Failed to gracefully exit: prerequisite timed out" None;
             Disconnect; CloseConnections]).
  apply list_elem_of_further, list_elem_of_here.
Qed.

(** ** The watchdog timer *)

Section WatchdogTimer.

Lemma filter_pending_nil (l : list TimerHandle) :
  (forall h t, l !! h = Some t -> pending t = false) ->
  List.filter pending l = [].
Proof.
  induction l as [|t l IH]; intros Hall; [reflexivity|].
  cbn. rewrite (Hall 0%nat t eq_refl).
  apply IH. intros h t' Ht'. exact (Hall (S h) t' Ht').
Qed.

Lemma at_most_one_pending (l : list TimerHandle) :
  forall k : nat,
    (forall h t, l !! h = Some t -> h <> k -> pending t = false) ->
    (length (List.filter pending l) <= 1)%nat.
Proof.
  induction l as [|t l IH]; intros k Hall; [cbn; lia|].
  destruct k as [|k].
  - cbn. rewrite (filter_pending_nil l).
    + destruct (pending t); cbn; lia.
    + intros h t' Ht'. now apply (Hall (S h) t' Ht').
  - cbn. rewrite (Hall 0%nat t eq_refl) by lia.
    apply (IH k). intros h t' Ht' Hne. apply (Hall (S h) t' Ht'). lia.
Qed.

(** A heartbeat leaves the fresh handle as the only pending one. *)
Lemma rearmed_owns (d : Z) (s : State) :
  watchdog_owns s -> watchdog_owns (rearmed d s).
Proof.
  intros [Hlt Hothers]. split.
  - unfold rearmed. cbn. rewrite length_app, length_alter. cbn. lia.
  - intros h t Ht Hne. unfold rearmed in Ht, Hne. cbn in Ht, Hne.
    rewrite lookup_app_l in Ht.
    + destruct (decide (h = watchdog s)) as [->|Hne'].
      * rewrite list_lookup_alter_eq in Ht.
        destruct (timers s !! watchdog s) as [t0|]; [|discriminate].
        injection Ht as <-. unfold pending. reflexivity.
      * rewrite list_lookup_alter_ne in Ht by congruence. eauto.
    + apply lookup_lt_Some in Ht.
      rewrite length_app, length_alter in Ht. cbn in Ht.
      rewrite length_alter. lia.
Qed.

Lemma rearmed_pending (d : Z) (s : State) :
  watchdog_owns s -> pending_handles (rearmed d s) = [mkTimer d false false].
Proof.
  intros [Hlt Hothers]. unfold pending_handles, rearmed. cbn.
  rewrite List.filter_app. cbn. rewrite filter_pending_nil; [reflexivity|].
  intros h t Ht.
  destruct (decide (h = watchdog s)) as [->|Hne].
  - rewrite list_lookup_alter_eq in Ht.
    destruct (timers s !! watchdog s) as [t0|]; [|discriminate].
    now injection Ht as <-.
  - rewrite list_lookup_alter_ne in Ht by congruence. eauto.
Qed.

(** The loop running a handle, written out. *)
Lemma expire_eq (h : nat) (t : TimerHandle) (s : State) :
  timers s !! h = Some t ->
  loop_is_running s = true ->
  expire h s =
    let msg := "Never heard from the bot for " +:+ str (delay t) +:+ " seconds. Exiting..." in
    (Ret tt, set_timers (<[h := TimerHandle_run t]> (timers s)) s,
     [Critical msg None;
      CreateTask (ExitHandler
                    match bot s with
                    | Some _ => Some (SendMessage (MANAGER s) ("WATCHDOG: " +:+ msg))
                    | None => None
                    end)]).
Proof.
  intros Ht Hrun. unfold expire, mbind, M_bind, get, modify. cbn.
  rewrite Ht. cbn. rewrite exit_bot_eq. cbn. now rewrite Hrun.
Qed.

Lemma enabled_expire (h : nat) (s : State) :
  enabled (Expire h) s = true ->
  loop_is_running s = true /\
  exists t, timers s !! h = Some t /\ pending t = true.
Proof.
  cbn. intros [Hrun Ht]%andb_true_iff. split; [exact Hrun|].
  destruct (timers s !! h) as [t|]; [eauto | discriminate].
Qed.

Lemma expired_owns (h : nat) (t : TimerHandle) (s : State) :
  watchdog_owns s ->
  timers s !! h = Some t ->
  watchdog_owns (set_timers (<[h := TimerHandle_run t]> (timers s)) s).
Proof.
  intros [Hlt Hothers] Ht. split; cbn.
  - now rewrite length_insert.
  - intros h' t' Ht' Hne.
    destruct (decide (h = h')) as [->|Hneq].
    + rewrite list_lookup_insert_eq in Ht' by eauto using lookup_lt_Some.
      injection Ht' as <-. unfold pending. cbn. apply andb_false_r.
    + rewrite list_lookup_insert_ne in Ht' by done. eauto.
Qed.

Lemma perform_owns (a : Action) (s : State) :
  watchdog_owns s -> enabled a s = true -> watchdog_owns (perform a s).1.2.
Proof.
  intros Hown Hen. destruct a as [d | h]; cbn [perform].
  - rewrite fine_eq. now apply rearmed_owns.
  - apply enabled_expire in Hen as (Hrun & t & Ht & _).
    rewrite (expire_eq h t s Ht Hrun). now apply expired_owns.
Qed.

(** A handle that is cancelled or has run stays so. *)
Lemma perform_stale (h : nat) (a : Action) (s : State) :
  stale h s -> stale h (perform a s).1.2.
Proof.
  intros (t & Ht & Hstale). destruct a as [d | h']; cbn [perform].
  - rewrite fine_eq. cbn [fst snd]. eexists. split; [exact (rearmed_old d s h t Ht)|].
    now destruct (decide (h = watchdog s)).
  - unfold expire, mbind, M_bind, get, modify. cbn.
    destruct (timers s !! h') as [t'|] eqn:Ht'; [|now exists t].
    cbn. rewrite exit_bot_eq. cbn.
    assert (stale h (set_timers (<[h' := TimerHandle_run t']> (timers s)) s)) as Hgoal.
    { destruct (decide (h' = h)) as [->|Hne].
      - exists (TimerHandle_run t'). split.
        + cbn. apply list_lookup_insert_eq. eauto using lookup_lt_Some.
        + unfold pending. cbn. apply andb_false_r.
      - exists t. split; [|exact Hstale]. cbn. now rewrite list_lookup_insert_ne. }
    now destruct (loop_is_running s).
Qed.

Lemma stale_never_expires (h : nat) (acts : list Action) :
  forall s : State, stale h s -> run (acts ++ [Expire h]) s = None.
Proof.
  induction acts as [|a acts IH]; intros s Hstale.
  - destruct Hstale as (t & Ht & Hstale). cbn. rewrite Ht, Hstale.
    now rewrite andb_false_r.
  - cbn [app run]. destruct (enabled a s); [|reflexivity].
    pose proof (perform_stale h a s Hstale) as Hnext.
    destruct (perform a s) as [[o s1] t1]. cbn in Hnext.
    now rewrite (IH s1 Hnext).
Qed.

(** After a heartbeat every earlier handle is stale. *)
Lemma rearmed_stale (d : Z) (s : State) (h : nat) :
  watchdog_owns s -> (h < length (timers s))%nat -> stale h (rearmed d s).
Proof.
  intros [_ Hothers] Hlt.
  destruct (lookup_lt_is_Some_2 (timers s) h Hlt) as [t Ht].
  eexists. split; [exact (rearmed_old d s h t Ht)|].
  destruct (decide (h = watchdog s)); [reflexivity | eauto].
Qed.

(** Only the handle the watchdog holds can expire, and once it has, no
    handle can. *)
Lemma expired_all_stale (h : nat) (t : TimerHandle) (s : State) :
  watchdog_owns s ->
  timers s !! h = Some t ->
  pending t = true ->
  h = watchdog s /\
  forall h' : nat,
    enabled (Expire h') (set_timers (<[h := TimerHandle_run t]> (timers s)) s) = false.
Proof.
  intros [Hlt Hothers] Ht Hpend.
  assert (h = watchdog s) as Heq.
  { destruct (decide (h = watchdog s)) as [|Hne]; [done|].
    rewrite (Hothers h t Ht Hne) in Hpend. discriminate. }
  split; [exact Heq|]. intros h'. cbn.
  destruct (decide (h = h')) as [<-|Hne].
  - rewrite list_lookup_insert_eq by eauto using lookup_lt_Some.
    unfold pending. cbn. now rewrite !andb_false_r.
  - rewrite list_lookup_insert_ne by done.
    destruct (timers s !! h') as [t'|] eqn:Ht'; [|apply andb_false_r].
    rewrite (Hothers h' t' Ht') by congruence. apply andb_false_r.
Qed.

(** The constructor [_Watchdog()] on a loop without pending handles. *)
Lemma init_owns (d : Z) (s : State) :
  (forall h t, timers s !! h = Some t -> pending t = false) ->
  watchdog_owns (Watchdog.init d s).1.2 /\
  pending_handles (Watchdog.init d s).1.2 = [mkTimer d false false].
Proof.
  intros Hnone. unfold Watchdog.init, Loop.call_later, watchdog_owns, pending_handles.
  unfold mbind, M_bind, mret, M_ret, get, modify, emit. cbn. split; [split|].
  - rewrite length_app. cbn. lia.
  - intros h t Ht Hne. rewrite lookup_app_l in Ht; [eauto|].
    apply lookup_lt_Some in Ht. rewrite length_app in Ht. cbn in Ht. lia.
  - rewrite List.filter_app. cbn. now rewrite filter_pending_nil.
Qed.

Lemma filter_owns `{Formatting Args} (record : LogRecord Args) (s : State) :
  watchdog_owns s -> watchdog_owns (APSCFilter.filter record s).1.2.
Proof.
  intros Hown. destruct (formatted record) as [e | m] eqn:Hm.
  - now rewrite (filter_unformatted record e s Hm).
  - destruct (str_in APSCFilter.SKIPPED m) eqn:Hskip.
    + rewrite (filter_skipped record m s Hm Hskip). cbn zeta.
      destruct (_ && _); [|exact Hown].
      destruct (bot s); [|exact Hown].
      destruct (15 <=? _); [|exact Hown].
      now destruct (loop_is_running s).
    + destruct (str_in APSCFilter.EXECUTED m) eqn:Hexec.
      * rewrite (filter_executed record m s Hm Hskip Hexec).
        now apply (rearmed_owns _ (set_count 0 s)).
      * now rewrite (filter_unmatched record m s Hm Hskip Hexec).
Qed.

Lemma expire_twice (h : nat) (acts : list Action) (s : State) :
  run (Expire h :: acts ++ [Expire h]) s = None.
Proof.
  cbn [run]. destruct (enabled (Expire h) s) eqn:Hen; [|reflexivity].
  apply enabled_expire in Hen as (Hrun & t & Ht & _).
  cbn [perform]. rewrite (expire_eq h t s Ht Hrun). cbv beta iota zeta.
  rewrite stale_never_expires; [reflexivity|].
  exists (TimerHandle_run t). split.
  - cbn. apply list_lookup_insert_eq. eauto using lookup_lt_Some.
  - unfold pending. cbn. apply andb_false_r.
Qed.

(** C7. While the watchdog object holds its current handle and every other
    handle is cancelled or has run (which the constructor establishes, and
    every heartbeat, every expiry and every call of the filter keeps), at
    most one expiry callback is pending. A reset cancels the handle the
    watchdog holds and schedules exactly one new handle, which is then the
    only pending one; no earlier handle can expire after the reset. Only
    the handle the watchdog holds can expire; its expiry logs the silence,
    and creates exactly one teardown task, whose prerequisite is the
    watchdog notification, or [None] when [env.bot] is unset; after it no
    handle can expire until the next reset, and no handle ever expires
    twice. *)
Theorem watchdog_single_callback (s : State) :
  watchdog_owns s ->
  (length (pending_handles s) <= 1)%nat /\
  (forall a : Action, enabled a s = true -> watchdog_owns (perform a s).1.2) /\
  (forall (Args : Type) (H : Formatting Args) (record : LogRecord Args),
     watchdog_owns (APSCFilter.filter record s).1.2) /\
  (forall d : Z,
     Watchdog.fine d s =
       (Ret tt, rearmed d s,
        [CancelTimer (watchdog s); CallLater (watchdog (rearmed d s)) d]) /\
     pending_handles (rearmed d s) = [mkTimer d false false] /\
     timers (rearmed d s) !! watchdog (rearmed d s) = Some (mkTimer d false false) /\
     forall (h : nat) (acts : list Action),
       (h < length (timers s))%nat -> run (acts ++ [Expire h]) (rearmed d s) = None) /\
  (forall h : nat,
     enabled (Expire h) s = true ->
     h = watchdog s /\
     exists t : TimerHandle,
       timers s !! h = Some t /\
       perform (Expire h) s =
         (Ret tt, set_timers (<[h := TimerHandle_run t]> (timers s)) s,
          [Critical ("Never heard from the bot for " +:+ str (delay t)
                     +:+ " seconds. Exiting...") None;
           CreateTask
             (ExitHandler
                match bot s with
                | Some _ =>
                    Some (SendMessage (MANAGER s)
                            ("WATCHDOG: " +:+ "Never heard from the bot for "
                             +:+ str (delay t) +:+ " seconds. Exiting..."))
                | None => None
                end)]) /\
       forall h' : nat, enabled (Expire h') (perform (Expire h) s).1.2 = false) /\
  (forall (h : nat) (acts : list Action), run (Expire h :: acts ++ [Expire h]) s = None) /\
  (forall (d : Z) (s0 : State),
     (forall h t, timers s0 !! h = Some t -> pending t = false) ->
     watchdog_owns (Watchdog.init d s0).1.2 /\
     pending_handles (Watchdog.init d s0).1.2 = [mkTimer d false false]).
Proof.
  intros Hown. split; [|split; [|split; [|split; [|split; [|split]]]]].
  - destruct Hown as [_ Hothers]. exact (at_most_one_pending _ _ Hothers).
  - intros a. now apply perform_owns.
  - intros Args H record. now apply filter_owns.
  - intros d. split; [exact (fine_eq d s)|].
    split; [now apply rearmed_pending|].
    split; [apply rearmed_new|].
    intros h acts Hlt. apply stale_never_expires. now apply rearmed_stale.
  - intros h Hen. apply enabled_expire in Hen as (Hrun & t & Ht & Hpend).
    destruct (expired_all_stale h t s Hown Ht Hpend) as [Heq Hnone].
    split; [exact Heq|]. exists t. split; [exact Ht|].
    cbn [perform]. rewrite (expire_eq h t s Ht Hrun). cbn zeta.
    split; [reflexivity | exact Hnone].
  - intros h acts. apply expire_twice.
  - intros d s0. apply init_owns.
Qed.

End WatchdogTimer.

(** The watchdog of the state after import: a heartbeat, then the expiry
    of the fresh handle. *)
Lemma watchdog_single_callback_witness :
  (length (pending_handles Examples.started) <= 1)%nat /\
  Watchdog.fine 900 Examples.started =
    (Ret tt, rearmed 900 Examples.started, [CancelTimer 0; CallLater 1 900]) /\
  run [Heartbeat 900; Expire 0] Examples.started = None /\
  snd <$> run [Heartbeat 900; Expire 1] Examples.started =
    Some [CancelTimer 0; CallLater 1 900;
          Critical "Never heard from the bot for 900 seconds. Exiting..." None;
          CreateTask
            (ExitHandler
               (Some (SendMessage 1000
                        "WATCHDOG: Never heard from the bot for 900 seconds. Exiting...")))].
Proof.
  assert (watchdog_owns Examples.started) as Hown.
  { split; [cbn; lia|]. intros [|h] t Ht Hne; [now contradict Hne | discriminate]. }
  destruct (watchdog_single_callback Examples.started Hown)
    as (Hone & _ & _ & Hreset & _).
  destruct (Hreset 900) as (Hfine & _ & _ & Hstale).
  split; [exact Hone|]. split; [exact Hfine|].
  split; [|reflexivity].
  change (run [Heartbeat 900; Expire 0] Examples.started)
    with (run ([] ++ [Expire 0]) (rearmed 900 Examples.started)).
  apply Hstale. cbn. lia.
Defined.

(** ** Repeated shutdown *)

(** [shutdown] keeps no record of an earlier call: with the loop running,
    two calls create two teardown tasks. *)
Lemma shutdown_twice (p1 p2 : option Awaitable) (s : State) :
  loop_is_running s = true ->
  mbind (fun _ => shutdown p2) (shutdown p1) s =
    (Ret tt, s, [CreateTask (ExitHandler p1); CreateTask (ExitHandler p2)]).
Proof.
  intros Hrun. unfold shutdown, mbind, M_bind, get, Loop.create_task, emit. cbn.
  rewrite Hrun. cbn. now rewrite Hrun.
Qed.

(** A teardown that starts after the client was disconnected by an earlier
    one does not call [disconnect] again, and calls
    [Tortoise.close_connections()] once more. *)
Lemma teardown_after_teardown (w1 w2 : Collaborators) (p1 p2 : option Awaitable) (s : State) :
  prerequisite_settles w1 p1 = true ->
  prerequisite_settles w2 p2 = true ->
  bot_connected s = true ->
  disconnect_run w1 = None ->
  bot_connected (exit_handler w1 p1 s).1.2 = false /\
  (Disconnect ∉ (exit_handler w2 p2 (exit_handler w1 p1 s).1.2).2) /\
  (CloseConnections ∈ (exit_handler w2 p2 (exit_handler w1 p1 s).1.2).2).
Proof.
  intros Hp1 Hp2 Hconn Hdisc.
  assert (bot_connected (exit_handler w1 p1 s).1.2 = false) as Hafter.
  { revert Hp1 Hconn Hdisc. rewrite exit_handler_split.
    unfold prerequisite_settles, bot_connected.
    destruct s as [[[connected]|] manager running_ handles counter current disposition];
      destruct w1 as [[| [] |] [e1|] [e2|]]; destruct p1 as [p|];
      cbn; try discriminate; intros _ -> _; reflexivity. }
  split; [exact Hafter|].
  rewrite (exit_handler_trace w2 _ p2 Hp2), Hafter. cbn [app].
  split.
  - rewrite !not_elem_of_app, not_elem_of_cons. repeat split.
    + destruct p2 as [p|]; [|apply not_elem_of_nil].
      destruct (prerequisite_run w2) as [|[]|];
        rewrite ?not_elem_of_cons; repeat split; try discriminate; apply not_elem_of_nil.
    + discriminate.
    + destruct (close_connections_run w2);
        rewrite ?not_elem_of_cons; repeat split; try discriminate; apply not_elem_of_nil.
  - apply elem_of_app. right. apply list_elem_of_here.
Qed.

(** ** The module after import *)

(** [apsc_filter = _APSCFilter()] on a loop without handles gives the state
    the examples start from. *)
Lemma module_import :
  (APSCFilter.init (mkState (Some (mkClient true)) 1000 true [] 0 0%nat SIG_DFL)).1.2
    = Examples.started /\
  watchdog_owns Examples.started.
Proof.
  split; [reflexivity|]. split; [cbn; lia|].
  intros [|h] t Ht Hne; [now contradict Hne | discriminate].
Qed.

(** ** Further properties of the teardown *)

Section TeardownFailures.
Variables (w : Collaborators) (s : State).

(** The teardown whose prerequisite raises something other than a
    timeout. *)
Lemma exit_handler_aborted (p : Awaitable) (e : exn) :
  prerequisite_run w = Fails e ->
  e <> TimeoutError ->
  exit_handler w (Some p) s =
    (after_sigterm (sigterm s), s,
     [WaitFor p 10; Critical "Failed to gracefully exit:" (Some e); Kill SIGTERM]).
Proof.
  intros Hrun Hne. rewrite exit_handler_split.
  destruct w as [run d c]. cbn in Hrun. subst run.
  destruct e; [contradiction | reflexivity..].
Qed.


(** X2. The teardown sends a signal only as the last call of a failed run:
    [SIGTERM] is sent exactly when the prerequisite raised something other
    than a timeout, or the wait settled and the storage close raised or the
    disconnect of a connected client raised; it then directly follows the
    critical log of the error and nothing follows it. No other signal is
    ever sent. *)
Theorem sigterm_iff_failure (prerequisite : option Awaitable) :
  (Kill SIGTERM ∈ (exit_handler w prerequisite s).2 <->
     (exists p e, prerequisite = Some p /\ prerequisite_run w = Fails e /\ e <> TimeoutError) \/
     (prerequisite_settles w prerequisite = true /\
      (is_Some (close_connections_run w) \/
       (bot_connected s = true /\ is_Some (disconnect_run w))))) /\
  (forall signal : Z,
     Kill signal ∈ (exit_handler w prerequisite s).2 ->
     signal = SIGTERM /\
     exists before e,
       (exit_handler w prerequisite s).2 =
         before ++ [Critical "Failed to gracefully exit:" (Some e); Kill SIGTERM] /\
       forall signal' : Z, Kill signal' ∉ before).
Proof.
  destruct (prerequisite_settles w prerequisite) eqn:Hsettle.
  - rewrite (exit_handler_trace w s prerequisite Hsettle).
    match goal with
    | |- context [?W ++ (if bot_connected s then _ else _) ++ _] => set (waiting := W)
    end.
    assert (Hwait : forall signal : Z, Kill signal ∉ waiting).
    { subst waiting. intros signal. destruct prerequisite as [p|]; [|apply not_elem_of_nil].
      destruct (prerequisite_run w) as [|[]|];
        rewrite ?not_elem_of_cons; repeat split; try discriminate; apply not_elem_of_nil. }
    assert (Hnot : ~ exists p e, prerequisite = Some p /\ prerequisite_run w = Fails e
                                 /\ e <> TimeoutError).
    { intros (p & e & -> & Hrun & Hne). unfold prerequisite_settles in Hsettle.
      rewrite Hrun in Hsettle. now destruct e. }
    clearbody waiting.
    destruct (close_connections_run w) as [e2|], (bot_connected s),
      (disconnect_run w) as [e1|]; cbn [app];
      (split;
       [ rewrite ?elem_of_app, ?elem_of_cons, ?elem_of_nil; split;
         [ intros Hin; right; split; [reflexivity|];
           first [ left; eexists; reflexivity
                 | right; split; [reflexivity | eexists; reflexivity]
                 | exfalso; decompose [or] Hin; try discriminate; try contradiction;
                   eapply Hwait; eassumption ]
         | intros [Hbad | [_ Hfail]]; [contradiction|];
           try (destruct Hfail as [Hfail | [Hc Hfail]]; try discriminate;
                try (now apply is_Some_None in Hfail));
           repeat first [left; reflexivity | right] ]
       | intros signal; rewrite ?elem_of_app, ?elem_of_cons, ?elem_of_nil; intros Hin;
         decompose [or] Hin; try discriminate; try contradiction;
         try (exfalso; eapply Hwait; eassumption);
         match goal with
         | Heq : Kill _ = Kill _ |- _ => injection Heq as ->
         end;
         (split; [reflexivity|]);
         first [ exists (waiting ++ [Disconnect; CloseConnections]); eexists; split;
                 [rewrite <- app_assoc; reflexivity|]
               | exists (waiting ++ [CloseConnections]); eexists; split;
                 [rewrite <- app_assoc; reflexivity|] ];
         intros signal'; rewrite not_elem_of_app, !not_elem_of_cons;
         repeat split; try discriminate; first [apply Hwait | apply not_elem_of_nil] ]).
  - assert (exists p e, prerequisite = Some p /\ prerequisite_run w = Fails e
                        /\ e <> TimeoutError) as (p & e & -> & Hrun & Hne).
    { unfold prerequisite_settles in Hsettle.
      destruct prerequisite as [p|]; [|discriminate].
      destruct (prerequisite_run w) as [|e|] eqn:Hrun; try discriminate.
      exists p, e. repeat split. now intros ->. }
    rewrite (exit_handler_aborted p e Hrun Hne). cbn [snd]. split.
    + split; [intros _; left; eauto|].
      intros _. do 2 apply list_elem_of_further. apply list_elem_of_here.
    + intros signal. rewrite !elem_of_cons, elem_of_nil. intros Hin.
      decompose [or] Hin; try discriminate; try contradiction.
      match goal with
      | Heq : Kill _ = Kill _ |- _ => injection Heq as ->
      end.
      split; [reflexivity|]. exists [WaitFor p 10], e. split; [reflexivity|].
      intros signal'. rewrite not_elem_of_cons. split; [discriminate | apply not_elem_of_nil].
Qed.

End TeardownFailures.



(** ** Further properties of the scheduler filter *)

Section Substrings.

Lemma append_nil (b : string) : "" +:+ b = b.
Proof. reflexivity. Qed.

Lemma append_cons (x : ascii) (a b : string) : String x a +:+ b = String x (a +:+ b).
Proof. reflexivity. Qed.

Lemma append_assoc (a b c : string) : (a +:+ b) +:+ c = a +:+ b +:+ c.
Proof.
  induction a as [|x a IH]; [reflexivity|].
  now rewrite !append_cons, IH.
Qed.

Lemma prefix_append (a b : string) : String.prefix a (a +:+ b) = true.
Proof.
  induction a as [|x a IH]; [now destruct b|].
  rewrite append_cons. cbn. destruct (ascii_dec x x); [exact IH | contradiction].
Qed.

Lemma prefix_append_l (sub a b : string) :
  String.prefix sub a = true -> String.prefix sub (a +:+ b) = true.
Proof.
  revert sub. induction a as [|x a IH]; intros [|y sub]; cbn; try discriminate.
  - now destruct b.
  - reflexivity.
  - rewrite append_cons. cbn. destruct (ascii_dec y x); [apply IH | discriminate].
Qed.

Lemma str_in_cons (sub : string) (x : ascii) (s : string) :
  str_in sub s = true -> str_in sub (String x s) = true.
Proof. intros Hin. cbn [str_in]. rewrite Hin. apply orb_true_r. Qed.

(** [sub in a + b] when [sub in b]. *)
Lemma str_in_append_r (sub a b : string) :
  str_in sub b = true -> str_in sub (a +:+ b) = true.
Proof.
  intros Hin. induction a as [|x a IH]; [exact Hin|].
  rewrite append_cons. now apply str_in_cons.
Qed.

(** [sub in a + b] when [sub in a]. *)
Lemma str_in_append_l (sub a b : string) :
  str_in sub a = true -> str_in sub (a +:+ b) = true.
Proof.
  induction a as [|x a IH]; intros Hin.
  - destruct sub; [now destruct b | discriminate].
  - cbn [str_in] in Hin. apply orb_true_iff in Hin as [Hpre | Hin].
    + pose proof (prefix_append_l _ _ b Hpre) as Hpre'.
      rewrite append_cons in Hpre' |- *. cbn [str_in]. now rewrite Hpre'.
    + rewrite append_cons. apply str_in_cons. now apply IH.
Qed.

(** [sub in a + sub + b] *)
Lemma str_in_middle (sub a b : string) : str_in sub (a +:+ sub +:+ b) = true.
Proof.
  apply str_in_append_r. pose proof (prefix_append sub b) as Hpre.
  destruct (sub +:+ b); cbn [str_in]; now rewrite Hpre.
Qed.

Lemma prefix_refl (s : string) : String.prefix s s = true.
Proof.
  induction s as [|x s IH]; [reflexivity|].
  cbn. destruct (ascii_dec x x); [exact IH | contradiction].
Qed.

Lemma str_in_self (s : string) : str_in s s = true.
Proof. destruct s; cbn [str_in]; now rewrite prefix_refl. Qed.

(** What the notification text holds, for any count and message. *)
Lemma conflict_text_contains (c : Z) (m : string) :
  str_in m (APSCFilter.conflict_text c m) = true /\
  str_in ("(" +:+ str c +:+ ")!") (APSCFilter.conflict_text c m) = true /\
  str_in (if c <? 15
          then "Please store the log and restart."
          else "Now the bot will restart.")
         (APSCFilter.conflict_text c m) = true.
Proof.
  unfold APSCFilter.conflict_text. split; [|split].
  - do 7 apply str_in_append_r. apply str_in_self.
  - change "RSS monitor tasks have conflicted too many times ("
      with ("RSS monitor tasks have conflicted too many times " +:+ "(").
    rewrite append_assoc.
    match goal with
    | |- str_in _ (?a +:+ "(" +:+ str c +:+ ")!" +:+ ?rest) = true =>
        replace (a +:+ "(" +:+ str c +:+ ")!" +:+ rest)
          with (a +:+ ("(" +:+ str c +:+ ")!") +:+ rest)
          by now rewrite !append_assoc
    end.
    apply str_in_middle.
  - do 4 apply str_in_append_r. destruct (c <? 15).
    + rewrite append_assoc. exact (str_in_middle _ "" _).
    + exact (str_in_middle _ "" _).
Qed.

End Substrings.

Section SchedulerFilterMore.
Context `{Formatting Args}.

(** X4. When a skipped-instance record brings the counter to a positive
    multiple of 5 (client set, loop running), the one coroutine the filter
    hands to the loop is a message to [env.MANAGER] whose text holds the
    new count in parentheses, the formatted message of the record, and the
    advice to store the log and restart below 15 or the announcement of the
    restart from 15 on. Below 15 it is scheduled as a task of its own; from
    15 on it is the prerequisite of the teardown task. *)
Theorem notification_text (record : LogRecord Args) (m : string) (s : State) :
  formatted record = inr m ->
  str_in "skipped: maximum number of running instances reached" m = true ->
  is_Some (bot s) ->
  loop_is_running s = true ->
  0 < count s + 1 ->
  (count s + 1) mod 5 = 0 ->
  exists text : string,
    (APSCFilter.filter record s).2 =
      (if 15 <=? count s + 1
       then [exiting (count s + 1);
             CreateTask (ExitHandler (Some (SendMessage (MANAGER s) text)))]
       else [CreateTask (RunAwaitable (SendMessage (MANAGER s) text))]) /\
    str_in m text = true /\
    str_in ("(" +:+ str (count s + 1) +:+ ")!") text = true /\
    str_in (if count s + 1 <? 15
            then "Please store the log and restart."
            else "Now the bot will restart.") text = true.
Proof.
  intros Hm Hskip [c Hbot] Hrun Hpos Hmod.
  exists (APSCFilter.conflict_text (count s + 1) m).
  split; [|apply conflict_text_contains].
  rewrite (filter_skipped record m s Hm Hskip). cbn zeta.
  rewrite Hbot, Hrun, Hmod.
  assert ((count s + 1 =? 0) = false) as -> by (apply Z.eqb_neq; lia).
  cbn [negb andb Z.eqb].
  now destruct (15 <=? count s + 1).
Qed.

(** X5. A record whose formatted message contains the skipped-instance text
    is handled by the first test alone, whatever else the message holds:
    the counter goes up by 1 and the timer handles are left alone in every
    case, the filter never returns [False], and it returns [True] unless
    the new count is a non-zero multiple of 5 and either [env.bot] is unset
    (it then raises) or the count is at least 15 with the loop not running
    (it then exits). *)
Theorem skipped_record_outcome (record : LogRecord Args) (m : string) (s : State) :
  formatted record = inr m ->
  str_in "skipped: maximum number of running instances reached" m = true ->
  count (APSCFilter.filter record s).1.2 = count s + 1 /\
  timers (APSCFilter.filter record s).1.2 = timers s /\
  watchdog (APSCFilter.filter record s).1.2 = watchdog s /\
  (APSCFilter.filter record s).1.1 <> Ret false /\
  ((APSCFilter.filter record s).1.1 = Ret true <->
     ~ ((count s + 1) mod 5 = 0 /\ count s + 1 <> 0 /\
        (bot s = None \/ (15 <= count s + 1 /\ loop_is_running s = false)))).
Proof.
  intros Hm Hskip. rewrite (filter_skipped record m s Hm Hskip). cbn zeta.
  destruct (Z.eqb_spec (count s + 1) 0) as [Hzero | Hnz];
    destruct (Z.eqb_spec ((count s + 1) mod 5) 0) as [Hmod | Hmod]; cbn [negb andb];
    try (repeat split; try discriminate; try reflexivity; intros; tauto).
  destruct (bot s) as [c|] eqn:Hbot;
    [destruct (Z.leb_spec 15 (count s + 1)) as [Hge | Hlt];
     [destruct (loop_is_running s) eqn:Hrun|]|];
    cbn; repeat split; try discriminate; try reflexivity;
    try (intros _ (_ & _ & [? | [? ?]]); (discriminate || lia));
    intros Hnot; exfalso; apply Hnot; auto.
Qed.

(** One call of [filter], for any record and any state. *)
Lemma filter_step (record : LogRecord Args) (s : State) :
  count (APSCFilter.filter record s).1.2 = counter_after (count s) record /\
  loop_is_running (APSCFilter.filter record s).1.2 = loop_is_running s /\
  bot (APSCFilter.filter record s).1.2 = bot s /\
  (loop_is_running s = true ->
   forall code : Z, (APSCFilter.filter record s).1.1 <> SystemExit code) /\
  (forall signal : Z, (APSCFilter.filter record s).1.1 <> Killed signal).
Proof.
  unfold counter_after. destruct (formatted record) as [e | m] eqn:Hm.
  - rewrite (filter_unformatted record e s Hm). now repeat split.
  - destruct (str_in APSCFilter.SKIPPED m) eqn:Hskip.
    + rewrite (filter_skipped record m s Hm Hskip). cbn zeta.
      destruct (_ && _); [|now repeat split].
      destruct (bot s) eqn:Hbot; [|now repeat split].
      destruct (15 <=? _); [|now repeat split].
      destruct (loop_is_running s) eqn:Hrun; cbn; now repeat split.
    + destruct (str_in APSCFilter.EXECUTED m) eqn:Hexec.
      * rewrite (filter_executed record m s Hm Hskip Hexec). now repeat split.
      * rewrite (filter_unmatched record m s Hm Hskip Hexec). now repeat split.
Qed.

(** X6. While the loop is running, every record of a run is answered (no
    call exits), and the counter after the run is the fold of the three
    tests over the records: plus 1 on a skipped-instance record, 0 on an
    executed-successfully record, unchanged otherwise. This holds whether
    or not [env.bot] is set: a call that raises at the notification step
    has already counted its record. A counter that starts non-negative
    stays so. *)
Theorem counter_follows_records (records : list (LogRecord Args)) (s : State) :
  loop_is_running s = true ->
  count (feed records s).2 = fold_left counter_after records (count s) /\
  length (feed records s).1 = length records /\
  (0 <= count s -> 0 <= count (feed records s).2).
Proof.
  revert s. induction records as [|record rest IH]; intros s Hrun.
  - cbn. repeat split; auto.
  - destruct (filter_step record s) as (Hcount & Hloop & _ & Hexit & Halive).
    specialize (Hexit Hrun). cbn [feed fold_left length].
    destruct (APSCFilter.filter record s) as [[o s1] t] eqn:Hf. cbn in *.
    specialize (IH s1 ltac:(congruence)).
    destruct (feed rest s1) as [results s2] eqn:Hfeed. cbn in IH.
    destruct IH as (IHcount & IHlen & IHpos).
    assert (0 <= count s -> 0 <= count s1) as Hpos.
    { rewrite Hcount. unfold counter_after.
      destruct (formatted record) as [|m]; [auto|].
      destruct (str_in _ m); [lia|]. destruct (str_in _ m); lia. }
    destruct o as [b | e | code | signal];
      [| |now contradiction (Hexit code)|now contradiction (Halive signal)];
      cbn; rewrite IHlen; repeat split; auto; congruence.
Qed.

(** Notifications and shutdowns over a run of skipped-instance records. *)
Lemma feed_skipped_tally (records : list (LogRecord Args)) :
  forall s : State,
    is_Some (bot s) ->
    loop_is_running s = true ->
    0 <= count s ->
    Forall failure_signal records ->
    Z.of_nat (length (List.filter notified (feed records s).1)) =
      (count s + Z.of_nat (length records)) / 5 - count s / 5 /\
    Z.of_nat (length (List.filter shutdown_initiated (feed records s).1)) =
      Z.max 2 ((count s + Z.of_nat (length records)) / 5) - Z.max 2 (count s / 5).
Proof.
  induction records as [|record rest IH]; intros s Hbot Hrun Hpos Hall.
  - cbn. rewrite Z.add_0_r. lia.
  - inversion Hall as [|? ? [m [Hm Hskip]] Hrest]; subst.
    destruct (filter_skipped_present record m s Hbot Hrun Hpos Hm Hskip)
      as (evs & Hf & Hnote & Hshut).
    cbn [feed]. rewrite Hf.
    specialize (IH (set_count (count s + 1) s) Hbot Hrun ltac:(cbn; lia) Hrest).
    destruct (feed rest (set_count (count s + 1) s)) as [results s2] eqn:Hfeed.
    cbn [fst snd count set_count] in IH. destruct IH as [IHnote IHshut].
    cbn [fst List.filter length].
    replace (count s + Z.of_nat (S (length rest)))
      with (count s + 1 + Z.of_nat (length rest)) by lia.
    split.
    + destruct (notified (Ret true, evs)) eqn:Hn; cbn [length].
      * assert ((count s + 1) mod 5 = 0) as Hmod by now apply Hnote.
        rewrite Nat2Z.inj_succ, IHnote. clear -Hmod Hpos.
        Z.to_euclidean_division_equations. lia.
      * assert ((count s + 1) mod 5 <> 0) as Hmod
            by (intros Hmod; apply Hnote in Hmod; discriminate).
        rewrite IHnote. clear -Hmod Hpos.
        Z.to_euclidean_division_equations. lia.
    + destruct (shutdown_initiated (Ret true, evs)) eqn:Hs; cbn [length].
      * assert ((count s + 1) mod 5 = 0 /\ 15 <= count s + 1) as [Hmod Hge]
            by now apply Hshut.
        rewrite Nat2Z.inj_succ, IHshut. clear -Hmod Hge Hpos.
        Z.to_euclidean_division_equations. lia.
      * assert (~ ((count s + 1) mod 5 = 0 /\ 15 <= count s + 1)) as Hno
            by (intros Hyes; apply Hshut in Hyes; discriminate).
        rewrite IHshut. clear -Hno Hpos.
        Z.to_euclidean_division_equations. lia.
Qed.

(** X7. With the client set and the loop running, [N] consecutive
    skipped-instance records from counter 0 hand exactly [N / 5]
    notifications to the loop and initiate exactly [max 0 (N / 5 - 2)]
    shutdowns: none before the fifteenth record, then one at every fifth
    record. *)
Theorem escalation_tally (records : list (LogRecord Args)) (s : State) :
  count s = 0 ->
  is_Some (bot s) ->
  loop_is_running s = true ->
  Forall failure_signal records ->
  Z.of_nat (length (List.filter notified (feed records s).1)) =
    Z.of_nat (length records) / 5 /\
  Z.of_nat (length (List.filter shutdown_initiated (feed records s).1)) =
    Z.max 0 (Z.of_nat (length records) / 5 - 2).
Proof.
  intros Hzero Hbot Hrun Hall.
  destruct (feed_skipped_tally records s Hbot Hrun ltac:(lia) Hall) as [Hnote Hshut].
  rewrite Hzero, Z.add_0_l in Hnote, Hshut. change (0 / 5) with 0 in Hnote, Hshut.
  split; [lia|]. rewrite Hshut. lia.
Qed.

End SchedulerFilterMore.

(** ** Further properties of the watchdog timer *)

Section WatchdogRuns.

Lemma pending_lookup (l : list TimerHandle) :
  forall (h : nat) (t : TimerHandle),
    l !! h = Some t -> pending t = true ->
    (1 <= length (List.filter pending l))%nat.
Proof.
  induction l as [|t0 l IH]; intros [|h] t Ht Hpend; try discriminate.
  - injection Ht as ->. cbn. rewrite Hpend. cbn. lia.
  - cbn in Ht. specialize (IH h t Ht Hpend). cbn.
    destruct (pending t0); cbn; lia.
Qed.

Lemma expired_none_pending (h : nat) (t : TimerHandle) (s : State) :
  watchdog_owns s ->
  timers s !! h = Some t ->
  pending t = true ->
  pending_handles (set_timers (<[h := TimerHandle_run t]> (timers s)) s) = [].
Proof.
  intros Hown Ht Hpend.
  destruct (expired_all_stale h t s Hown Ht Hpend) as [-> _].
  destruct Hown as [Hlt Hothers].
  unfold pending_handles. cbn. apply filter_pending_nil. intros h' t' Ht'.
  destruct (decide (watchdog s = h')) as [<-|Hne].
  - rewrite list_lookup_insert_eq in Ht' by done.
    injection Ht' as <-. unfold pending. cbn. apply andb_false_r.
  - rewrite list_lookup_insert_ne in Ht' by done. eauto.
Qed.

Lemma run_bound (acts : list Action) :
  forall (s s' : State) (evs : list Event),
    watchdog_owns s ->
    run acts s = Some (s', evs) ->
    watchdog_owns s' /\
    length (List.filter is_teardown evs) = length (List.filter is_expire acts) /\
    (length (List.filter is_expire acts)
     <= length (pending_handles s) + length (List.filter is_heartbeat acts))%nat.
Proof.
  induction acts as [|a acts IH]; intros s s' evs Hown Hrun.
  - cbn in Hrun. injection Hrun as <- <-. cbn. repeat split; [apply Hown.. | lia].
  - cbn [run] in Hrun. destruct (enabled a s) eqn:Hen; [|discriminate].
    pose proof (perform_owns a s Hown Hen) as Hown1.
    destruct a as [d | h]; cbn [perform] in *.
    + rewrite fine_eq in Hrun, Hown1. cbn [fst snd] in Hown1.
      destruct (run acts (rearmed d s)) as [[s2 t2]|] eqn:Hrest; [|discriminate].
      injection Hrun as <- <-.
      destruct (IH _ _ _ Hown1 Hrest) as (Hown2 & Htear & Hle).
      rewrite (rearmed_pending d s Hown) in Hle. cbn in Hle |- *.
      repeat split; [apply Hown2.. | exact Htear | lia].
    + apply enabled_expire in Hen as (Hloop & t & Ht & Hpend).
      rewrite (expire_eq h t s Ht Hloop) in Hrun, Hown1. cbv beta iota zeta in Hrun.
      cbn [fst snd] in Hown1.
      destruct (run acts _) as [[s2 t2]|] eqn:Hrest; [|discriminate].
      injection Hrun as <- <-.
      destruct (IH _ _ _ Hown1 Hrest) as (Hown2 & Htear & Hle).
      rewrite (expired_none_pending h t s Hown Ht Hpend) in Hle.
      pose proof (pending_lookup _ h t Ht Hpend) as Hone.
      unfold pending_handles. cbn in Hle |- *.
      repeat split; [apply Hown2.. | now rewrite Htear | lia].
Qed.

(** X8. Over any sequence of heartbeats and expiries that the loop can
    perform from a state in which only the handle held by the watchdog can
    be pending, every expiry creates exactly one teardown task and nothing
    else does, and there are at most as many expiries as heartbeats plus
    one: the watchdog initiates at most one shutdown per arming. The final
    state again has at most one pending handle. *)
Theorem watchdog_run_bound (acts : list Action) (s s' : State) (evs : list Event) :
  watchdog_owns s ->
  run acts s = Some (s', evs) ->
  length (List.filter is_teardown evs) = length (List.filter is_expire acts) /\
  (length (List.filter is_expire acts)
   <= 1 + length (List.filter is_heartbeat acts))%nat /\
  watchdog_owns s' /\
  (length (pending_handles s') <= 1)%nat.
Proof.
  intros Hown Hrun.
  destruct (run_bound acts s s' evs Hown Hrun) as (Hown' & Htear & Hle).
  pose proof (at_most_one_pending _ _ (proj2 Hown)) as Hone.
  pose proof (at_most_one_pending _ _ (proj2 Hown')) as Hone'.
  unfold pending_handles in *. repeat split; try apply Hown'; try assumption; lia.
Qed.

End WatchdogRuns.

(** ** The further properties on concrete records *)

Lemma notification_text_witness :
  exists text : string,
    (APSCFilter.filter (H := no_args) Examples.skipped (set_count 4 Examples.started)).2 =
      [CreateTask (RunAwaitable (SendMessage 1000 text))] /\
    str_in "(5)!" text = true /\
    str_in "Please store the log and restart." text = true.
Proof.
  destruct (notification_text (H := no_args) Examples.skipped
              "Execution of job run_monitor_task skipped: maximum number of running instances reached (1)"
              (set_count 4 Examples.started) eq_refl eq_refl
              (ex_intro _ _ eq_refl) eq_refl eq_refl eq_refl)
    as (text & Hevents & _ & Hcount & Hadvice).
  exists text. split; [exact Hevents|]. split; [exact Hcount | exact Hadvice].
Defined.

(** A message that matches the first and the second test counts as a
    conflict. *)
Lemma skipped_record_outcome_witness :
  count (APSCFilter.filter (H := no_args)
           (Examples.record "skipped: maximum number of running instances reached, last run executed successfully")
           Examples.started).1.2 = 1 /\
  timers (APSCFilter.filter (H := no_args)
            (Examples.record "skipped: maximum number of running instances reached, last run executed successfully")
            Examples.started).1.2 = timers Examples.started.
Proof.
  destruct (skipped_record_outcome (H := no_args)
              (Examples.record "skipped: maximum number of running instances reached, last run executed successfully")
              "skipped: maximum number of running instances reached, last run executed successfully"
              Examples.started eq_refl eq_refl)
    as (Hcount & Htimers & _).
  split; [exact Hcount | exact Htimers].
Defined.

(** Six conflicts without a client (the fifth call raises), a heartbeat,
    one more conflict: the counter is 1. *)
Lemma counter_follows_records_witness :
  count (feed (H := no_args)
           (replicate 6 Examples.skipped ++ [Examples.executed; Examples.skipped])
           Examples.no_bot).2 = 1.
Proof.
  exact (proj1 (counter_follows_records (H := no_args)
                  (replicate 6 Examples.skipped ++ [Examples.executed; Examples.skipped])
                  Examples.no_bot eq_refl)).
Defined.

Lemma escalation_tally_witness :
  Z.of_nat (length (List.filter notified
              (feed (H := no_args) (replicate 15 Examples.skipped) Examples.started).1)) = 3 /\
  Z.of_nat (length (List.filter shutdown_initiated
              (feed (H := no_args) (replicate 15 Examples.skipped) Examples.started).1)) = 1.
Proof.
  exact (escalation_tally (H := no_args) (replicate 15 Examples.skipped) Examples.started
           eq_refl (ex_intro _ _ eq_refl) eq_refl
           (Forall_replicate _ 15%nat _ skipped_is_failure_signal)).
Defined.

Lemma watchdog_run_bound_witness :
  match run [Heartbeat 900; Expire 1; Heartbeat 900] Examples.started with
  | Some (s', evs) =>
      length (List.filter is_teardown evs) = 1%nat /\
      (length (pending_handles s') <= 1)%nat
  | None => False
  end.
Proof.
  assert (watchdog_owns Examples.started) as Hown.
  { split; [cbn; lia|]. intros [|h] t Ht Hne; [now contradict Hne | discriminate]. }
  destruct (run [Heartbeat 900; Expire 1; Heartbeat 900] Examples.started)
    as [[s' evs]|] eqn:Hrun; [|vm_compute in Hrun; discriminate].
  destruct (watchdog_run_bound _ _ _ _ Hown Hrun) as (Htear & _ & _ & Hone).
  split; [exact Htear | exact Hone].
Defined.

(** ** The loggers after import *)

Section LoggerConfiguration.
Import Logging.

Lemma getLogger_insert (name n : string) (lg : Logger) (loggers : gmap string Logger) :
  getLogger n (<[name := lg]> loggers) =
    if decide (name = n) then lg else getLogger n loggers.
Proof.
  unfold getLogger. rewrite lookup_insert. now destruct (decide (name = n)).
Qed.

Lemma getLogger_execute (st : Statement) (n : string) (loggers : gmap string Logger) :
  level (getLogger n (execute loggers st)) =
    level_after n (level (getLogger n loggers)) st /\
  filters (getLogger n (execute loggers st)) =
    filters_after n (filters (getLogger n loggers)) st.
Proof.
  destruct st as [name lvl | name f | name]; cbn [execute level_after filters_after];
    unfold setLevel, addFilter; rewrite getLogger_insert;
    destruct (decide (name = n)) as [->|]; split; reflexivity.
Qed.

(** The level and the filters of one logger through a list of statements. *)
Lemma getLogger_statements (stmts : list Statement) (n : string) :
  forall loggers : gmap string Logger,
    level (getLogger n (fold_left execute stmts loggers)) =
      fold_left (level_after n) stmts (level (getLogger n loggers)) /\
    filters (getLogger n (fold_left execute stmts loggers)) =
      fold_left (filters_after n) stmts (filters (getLogger n loggers)).
Proof.
  induction stmts as [|st stmts IH]; intros loggers; [split; reflexivity|].
  cbn [fold_left]. destruct (IH (execute loggers st)) as [-> ->].
  now destruct (getLogger_execute st n loggers) as [-> ->].
Qed.

(** A logger whose only filter is [apsc_filter] answers as the filter. *)
Lemma Filterer_apsc `{Formatting Args} (record : LogRecord Args) (s : State) :
  Filterer_filter [apsc_filter] record s = APSCFilter.filter record s.
Proof.
  cbn [Filterer_filter run_filter]. unfold mbind, M_bind.
  destruct (APSCFilter.filter record s) as [[[[|]|e|code|signal] s1] t]; cbn;
    now rewrite ?app_nil_r.
Qed.

Lemma Filterer_access `{Formatting Args} (record : LogRecord Args) (s : State) :
  Filterer_filter [aiohttp_access_filter] record s =
    (AiohttpAccessFilter.filter record, s, []).
Proof.
  cbn [Filterer_filter run_filter]. unfold mbind, M_bind.
  now destruct (AiohttpAccessFilter.filter record) as [[|]|e|code|signal].
Qed.

(** The statements of the module, folded for the loggers of interest. *)
Lemma statements_scheduler (DEBUG : bool) :
  fold_left (level_after "apscheduler.scheduler") (module_statements DEBUG) NOTSET = NOTSET /\
  fold_left (filters_after "apscheduler.scheduler") (module_statements DEBUG) [] = [apsc_filter] /\
  (forall l, fold_left (level_after "apscheduler") (module_statements DEBUG) l = WARNING) /\
  (forall l, fold_left (level_after "apscheduler.executors.default") (module_statements DEBUG) l = INFO) /\
  fold_left (filters_after "apscheduler.executors.default") (module_statements DEBUG) [] = [apsc_filter].
Proof.
  destruct DEBUG; vm_compute; repeat split.
Qed.

Lemma ancestors_scheduler : ancestors "apscheduler.scheduler" = ["apscheduler"].
Proof. vm_compute. reflexivity. Qed.

(** The level and the filters of one logger after import. *)
Lemma import_module_logger (DEBUG : bool) (n : string) (loggers : gmap string Logger) :
  level (getLogger n (import_module DEBUG loggers)) =
    fold_left (level_after n) (module_statements DEBUG) (level (getLogger n loggers)) /\
  filters (getLogger n (import_module DEBUG loggers)) =
    fold_left (filters_after n) (module_statements DEBUG) (filters (getLogger n loggers)).
Proof. apply getLogger_statements. Qed.

Lemma enabled_from (threshold lvl : Z) :
  0 < threshold ->
  (0 <? lvl) && (threshold <=? lvl) = (threshold <=? lvl).
Proof.
  intros Hpos. destruct (Z.leb_spec threshold lvl) as [Hge | Hlt].
  - rewrite andb_true_r. apply Z.ltb_lt. lia.
  - apply andb_false_r.
Qed.

(** A logger with a level of its own. *)
Lemma Logger_log_own `{Formatting Args} (root_level : Z) (L : gmap string Logger)
      (name : string) (record : LogRecord Args) (s : State) (lvl : Z) (fs : list Filter) :
  level (getLogger name L) = lvl -> 0 < lvl ->
  filters (getLogger name L) = fs ->
  Logger_log root_level L name record s =
    if lvl <=? levelno record then Filterer_filter fs record s else (Ret false, s, []).
Proof.
  intros Hl Hpos Hf. unfold Logger_log, isEnabledFor, getEffectiveLevel.
  cbn [first_level]. rewrite Hl, Hf.
  assert ((lvl =? NOTSET) = false) as -> by (apply Z.eqb_neq; unfold NOTSET; lia).
  rewrite enabled_from by exact Hpos.
  now destruct (lvl <=? levelno record).
Qed.

(** A logger without level below a parent with one. *)
Lemma Logger_log_parent `{Formatting Args} (root_level : Z) (L : gmap string Logger)
      (name parent : string) (rest : list string)
      (record : LogRecord Args) (s : State) (lvl : Z) (fs : list Filter) :
  ancestors name = parent :: rest ->
  level (getLogger name L) = NOTSET ->
  level (getLogger parent L) = lvl -> 0 < lvl ->
  filters (getLogger name L) = fs ->
  Logger_log root_level L name record s =
    if lvl <=? levelno record then Filterer_filter fs record s else (Ret false, s, []).
Proof.
  intros Hanc Hown Hl Hpos Hf. unfold Logger_log, isEnabledFor, getEffectiveLevel.
  rewrite Hanc. cbn [first_level]. rewrite Hown, Hl, Hf.
  change (NOTSET =? NOTSET) with true. cbv iota.
  assert ((lvl =? NOTSET) = false) as -> by (apply Z.eqb_neq; unfold NOTSET; lia).
  rewrite enabled_from by exact Hpos.
  now destruct (lvl <=? levelno record).
Qed.

(** X9. After import, whatever [env.DEBUG] and the level of the root
    logger are: a record logged on [apscheduler.scheduler] (a logger the
    module gives no level of its own, so that it takes [WARNING] from
    [apscheduler]) is answered by [apsc_filter] when its level is at least
    [WARNING] and dropped before the filter otherwise; a record logged on
    [apscheduler.executors.default] is answered by the same filter object
    from [INFO] on. The first logger must not have been given a level or a
    filter before the import, the second no filter. *)
Theorem scheduler_records_reach_filter `{Formatting Args}
  (DEBUG : bool) (root_level : Z) (loggers : gmap string Logger)
  (record : LogRecord Args) (s : State) :
  untouched "apscheduler.scheduler" loggers ->
  filters (getLogger "apscheduler.executors.default" loggers) = [] ->
  Logger_log root_level (import_module DEBUG loggers) "apscheduler.scheduler" record s =
    (if WARNING <=? levelno record
     then APSCFilter.filter record s
     else (Ret false, s, [])) /\
  Logger_log root_level (import_module DEBUG loggers) "apscheduler.executors.default"
             record s =
    (if INFO <=? levelno record
     then APSCFilter.filter record s
     else (Ret false, s, [])).
Proof.
  intros Hsched Hexec.
  destruct (statements_scheduler DEBUG) as (Hl1' & Hf1' & Hl2' & Hl3' & Hf3').
  destruct (import_module_logger DEBUG "apscheduler.scheduler" loggers) as [Hl1 Hf1].
  destruct (import_module_logger DEBUG "apscheduler" loggers) as [Hl2 _].
  destruct (import_module_logger DEBUG "apscheduler.executors.default" loggers)
    as [Hl3 Hf3].
  unfold untouched in Hsched. rewrite Hsched in Hl1, Hf1.
  split.
  - rewrite <- Filterer_apsc.
    apply Logger_log_parent with (parent := "apscheduler") (rest := []).
    + exact ancestors_scheduler.
    + now rewrite Hl1.
    + now rewrite Hl2.
    + reflexivity.
    + now rewrite Hf1.
  - rewrite <- Filterer_apsc. apply Logger_log_own.
    + now rewrite Hl3.
    + reflexivity.
    + now rewrite Hf3, Hexec.
Qed.

Lemma statements_access (DEBUG : bool) :
  (forall l, fold_left (level_after "aiohttp.access") (module_statements DEBUG) l = l) /\
  (forall l, fold_left (level_after "aiohttp") (module_statements DEBUG) l = l) /\
  fold_left (filters_after "aiohttp.access") (module_statements DEBUG) [] =
    [aiohttp_access_filter].
Proof.
  destruct DEBUG; vm_compute; repeat split.
Qed.

Lemma ancestors_access : ancestors "aiohttp.access" = ["aiohttp"].
Proof. vm_compute. reflexivity. Qed.

Lemma first_level_ext (L1 L2 : gmap string Logger) (root_level : Z) (names : list string) :
  Forall (fun n => level (getLogger n L1) = level (getLogger n L2)) names ->
  first_level L1 names root_level = first_level L2 names root_level.
Proof.
  induction 1 as [|n names Hn _ IH]; cbn [first_level]; [reflexivity|].
  now rewrite Hn, IH.
Qed.

(** X10. The import attaches [aiohttp_access_filter] to [aiohttp.access]
    and leaves the threshold of that logger as it was: a record logged
    there is answered by the access filter exactly when the logger was
    enabled for its level before the import, whatever [env.DEBUG] is. The
    logger must not have had a filter before the import. *)
Theorem access_records_reach_filter `{Formatting Args}
  (DEBUG : bool) (root_level : Z) (loggers : gmap string Logger)
  (record : LogRecord Args) (s : State) :
  filters (getLogger "aiohttp.access" loggers) = [] ->
  Logger_log root_level (import_module DEBUG loggers) "aiohttp.access" record s =
    (if isEnabledFor root_level loggers "aiohttp.access" (levelno record)
     then (AiohttpAccessFilter.filter record, s, [])
     else (Ret false, s, [])).
Proof.
  intros Hnone.
  destruct (statements_access DEBUG) as (Hl1' & Hl2' & Hf1').
  destruct (import_module_logger DEBUG "aiohttp.access" loggers) as [Hl1 Hf1].
  destruct (import_module_logger DEBUG "aiohttp" loggers) as [Hl2 _].
  rewrite Hl1' in Hl1. rewrite Hl2' in Hl2. rewrite Hnone, Hf1' in Hf1.
  unfold Logger_log, isEnabledFor, getEffectiveLevel.
  rewrite (first_level_ext (import_module DEBUG loggers) loggers).
  - rewrite Hf1. destruct (_ && _); [apply Filterer_access | reflexivity].
  - rewrite ancestors_access. repeat constructor; assumption.
Qed.

(** The relation the two configurations keep on the level of a logger. *)
Lemma level_after_lowers (n : string) (stmts1 stmts2 : list Statement) :
  Forall2 lowers stmts1 stmts2 ->
  forall l1 l2 : Z,
    l1 <= l2 -> (l1 = NOTSET <-> l2 = NOTSET) ->
    fold_left (level_after n) stmts1 l1 <= fold_left (level_after n) stmts2 l2 /\
    (fold_left (level_after n) stmts1 l1 = NOTSET <->
     fold_left (level_after n) stmts2 l2 = NOTSET).
Proof.
  induction 1 as [|st1 st2 stmts1 stmts2 Hst _ IH]; intros l1 l2 Hle Hzero;
    [now split|].
  cbn [fold_left]. apply IH;
    destruct st1 as [n1 v1 | n1 f1 | n1], st2 as [n2 v2 | n2 f2 | n2];
    cbn in Hst |- *; try contradiction; try assumption;
    destruct Hst as [<- Hv]; destruct (decide (n1 = n)); try assumption;
    unfold NOTSET; lia.
Qed.

Lemma first_level_lowers (loggers1 loggers2 : gmap string Logger) (root_level : Z)
      (names : list string) :
  (forall n, level (getLogger n loggers1) <= level (getLogger n loggers2) /\
             (level (getLogger n loggers1) = NOTSET <->
              level (getLogger n loggers2) = NOTSET)) ->
  first_level loggers1 names root_level <= first_level loggers2 names root_level.
Proof.
  intros Hrel. induction names as [|n names IH]; cbn [first_level]; [lia|].
  destruct (Hrel n) as [Hle Hzero].
  destruct (Z.eqb_spec (level (getLogger n loggers1)) NOTSET) as [H1 | H1];
    destruct (Z.eqb_spec (level (getLogger n loggers2)) NOTSET) as [H2 | H2];
    tauto || lia.
Qed.

Lemma module_statements_lower :
  Forall2 lowers (module_statements true) (module_statements false).
Proof.
  unfold module_statements, logger_level_muted, logger_level_shut_upped,
    INFO, WARNING, ERROR, CRITICAL.
  repeat constructor; cbn; lia.
Qed.

(** X11. [env.DEBUG] only lowers thresholds: for every logger name, every
    earlier configuration and every root level, the effective level after
    an import with [DEBUG] set is at most the effective level after an
    import without it, so that every record that gets through without
    [DEBUG] also gets through with it. *)
Theorem debug_lowers_thresholds
  (root_level : Z) (loggers : gmap string Logger) (name : string) (lvl : Z) :
  getEffectiveLevel root_level (import_module true loggers) name
    <= getEffectiveLevel root_level (import_module false loggers) name /\
  (if isEnabledFor root_level (import_module false loggers) name lvl
   then isEnabledFor root_level (import_module true loggers) name lvl = true
   else True).
Proof.
  assert (getEffectiveLevel root_level (import_module true loggers) name
          <= getEffectiveLevel root_level (import_module false loggers) name) as Hle.
  { apply first_level_lowers. intros n.
    destruct (import_module_logger true n loggers) as [-> _].
    destruct (import_module_logger false n loggers) as [-> _].
    apply level_after_lowers; [exact module_statements_lower | lia | tauto]. }
  split; [exact Hle|]. unfold isEnabledFor.
  destruct (0 <? lvl); cbn [andb]; [|exact I].
  destruct (Z.leb_spec (getEffectiveLevel root_level (import_module false loggers) name) lvl);
    [|exact I].
  apply Z.leb_le. lia.
Qed.


Lemma dotted_prefixes_append (x y before : string) :
  dotted_prefixes before (x +:+ y) =
    dotted_prefixes before x ++ dotted_prefixes (before +:+ x) y.
Proof.
  revert before. induction x as [|c x IH]; intros before.
  - rewrite append_nil. cbn [dotted_prefixes app].
    replace (before +:+ "") with before; [reflexivity|].
    induction before as [|b before IHb]; [reflexivity|].
    now rewrite append_cons, <- IHb.
  - rewrite append_cons. cbn [dotted_prefixes]. rewrite IH, <- app_assoc.
    do 2 f_equal. rewrite append_assoc. reflexivity.
Qed.

(** Every dotted prefix found after [lib.] starts with [lib.]. *)
Lemma dotted_prefixes_below (lib rest : string) :
  forall (before n : string),
    n ∈ dotted_prefixes (lib +:+ "." +:+ before) rest ->
    exists x, n = lib +:+ "." +:+ x.
Proof.
  induction rest as [|c rest IH]; intros before n Hin; cbn [dotted_prefixes] in Hin.
  - now apply elem_of_nil in Hin.
  - apply elem_of_app in Hin as [Hin | Hin].
    + destruct (Ascii.eqb c "."); [|now apply elem_of_nil in Hin].
      apply list_elem_of_singleton in Hin as ->. now exists before.
    + rewrite !append_assoc in Hin. now apply (IH (before +:+ String c "")).
Qed.

Lemma first_level_skip (L : gmap string Logger) (root_level : Z) (pre rest : list string) :
  Forall (fun n => level (getLogger n L) = NOTSET) pre ->
  first_level L (pre ++ rest) root_level = first_level L rest root_level.
Proof.
  induction 1 as [|n pre Hn _ IH]; [reflexivity|].
  cbn [app first_level]. now rewrite Hn.
Qed.

Lemma level_after_other (n : string) (stmts : list Statement) (l : Z) :
  Forall (fun st => match st with SetLevel c _ => c <> n | _ => True end) stmts ->
  fold_left (level_after n) stmts l = l.
Proof.
  induction 1 as [|st stmts Hst _ IH]; [reflexivity|].
  cbn [fold_left]. rewrite <- IH at 2. f_equal.
  destruct st as [c v| |]; cbn; [|reflexivity..]. now destruct (decide (c = n)).
Qed.

Lemma muted_level (DEBUG : bool) (lib : string) :
  lib ∈ muted_libraries ->
  dotted_prefixes "" lib = [] /\
  (forall l, fold_left (level_after lib) (module_statements DEBUG) l = logger_level_muted DEBUG) /\
  forall x : string,
    Forall (fun st => match st with SetLevel c _ => c <> lib +:+ "." +:+ x | _ => True end)
           (module_statements DEBUG).
Proof.
  unfold muted_libraries. rewrite !elem_of_cons, elem_of_nil.
  intros Hin. decompose [or] Hin; try contradiction; subst lib;
    (split; [vm_compute; reflexivity|]);
    (split; [destruct DEBUG; vm_compute; reflexivity|]);
    intros x; unfold module_statements; repeat constructor;
    cbv [String.append]; discriminate.
Qed.

Lemma below_library (lib x : string) : lib +:+ "." +:+ x <> lib.
Proof.
  induction lib as [|c lib IH].
  - rewrite append_nil. discriminate.
  - rewrite append_cons. intros Heq. injection Heq as Heq. now apply IH.
Qed.

(** X12. Muting a library mutes its subtree: for each of the seven
    libraries the module mutes without a stricter child (all but
    matplotlib), a logger below the library has the effective level
    [WARNING] after the import, or [INFO] when [env.DEBUG] is set, whatever
    the root level is, provided that neither the logger nor a logger
    between it and the library had a level of its own; other loggers below
    the library may have one. The name below the library is a dotted path
    without empty components. *)
Theorem library_subtree_muted (DEBUG : bool) (root_level : Z)
  (loggers : gmap string Logger) (lib suffix : string) :
  lib ∈ muted_libraries ->
  str_in ".." ("." +:+ suffix) = false ->
  (forall n : string,
     n ∈ (lib +:+ "." +:+ suffix) :: ancestors (lib +:+ "." +:+ suffix) ->
     n <> lib ->
     level (getLogger n loggers) = NOTSET) ->
  getEffectiveLevel root_level (import_module DEBUG loggers) (lib +:+ "." +:+ suffix)
    = logger_level_muted DEBUG.
Proof.
  intros Hlib _ Hunset. destruct (muted_level DEBUG lib Hlib) as (Hnodot & Hlevel & Hother).
  assert (Hanc : ancestors (lib +:+ "." +:+ suffix) =
                 reverse (dotted_prefixes (lib +:+ ".") suffix) ++ [lib]).
  { unfold ancestors. rewrite dotted_prefixes_append, Hnodot, app_nil_l, append_nil.
    change (dotted_prefixes lib ("." +:+ suffix))
      with ([lib] ++ dotted_prefixes (lib +:+ ".") suffix).
    now rewrite reverse_app, reverse_singleton. }
  assert (Hbelow : forall n,
             n ∈ (lib +:+ "." +:+ suffix) :: reverse (dotted_prefixes (lib +:+ ".") suffix) ->
             level (getLogger n (import_module DEBUG loggers)) = NOTSET).
  { intros n Hn.
    assert (n ∈ (lib +:+ "." +:+ suffix) :: ancestors (lib +:+ "." +:+ suffix)) as Hin.
    { rewrite Hanc, app_comm_cons. apply elem_of_app. now left. }
    assert (exists x, n = lib +:+ "." +:+ x) as [x ->].
    { apply elem_of_cons in Hn as [-> | Hn]; [now exists suffix|].
      rewrite elem_of_reverse in Hn.
      replace (lib +:+ ".") with (lib +:+ "." +:+ "") in Hn by reflexivity.
      now apply dotted_prefixes_below in Hn. }
    destruct (import_module_logger DEBUG (lib +:+ "." +:+ x) loggers) as [-> _].
    rewrite level_after_other by apply Hother.
    apply Hunset; [exact Hin | apply below_library]. }
  unfold getEffectiveLevel. rewrite Hanc, app_comm_cons, first_level_skip.
  - cbn [first_level]. destruct (import_module_logger DEBUG lib loggers) as [-> _].
    rewrite Hlevel. now destruct DEBUG.
  - apply Forall_forall. exact Hbelow.
Qed.

Lemma untouched_empty (name : string) : untouched name ∅.
Proof. unfold untouched, getLogger. now rewrite lookup_empty. Defined.

(** With the root at [WARNING] and nothing configured before: an [INFO]
    record on the scheduler logger is dropped unseen; an [INFO] heartbeat
    on the executor logger is answered by the filter. *)
Lemma scheduler_records_reach_filter_witness :
  Logger_log (H := no_args) WARNING (import_module false ∅) "apscheduler.scheduler"
             (mkRecord INFO "Execution of job run_monitor_task skipped: maximum number of running instances reached (1)" tt)
             Examples.started
    = (Ret false, Examples.started, []) /\
  Logger_log (H := no_args) WARNING (import_module false ∅) "apscheduler.executors.default"
             (mkRecord INFO "Job run_monitor_task executed successfully" tt)
             (set_count 3 Examples.started)
    = APSCFilter.filter (H := no_args)
        (mkRecord INFO "Job run_monitor_task executed successfully" tt)
        (set_count 3 Examples.started).
Proof.
  split.
  - exact (proj1 (scheduler_records_reach_filter (H := no_args) false WARNING ∅
             (mkRecord INFO "Execution of job run_monitor_task skipped: maximum number of running instances reached (1)" tt)
             Examples.started (untouched_empty _)
             (f_equal filters (untouched_empty "apscheduler.executors.default")))).
  - exact (proj2 (scheduler_records_reach_filter (H := no_args) false WARNING ∅
             (mkRecord INFO "Job run_monitor_task executed successfully" tt)
             (set_count 3 Examples.started) (untouched_empty _)
             (f_equal filters (untouched_empty "apscheduler.executors.default")))).
Defined.

(** An [INFO] access record without the marker is suppressed by the filter
    when the root is at [INFO]; with the root at [WARNING] even a browser
    record is dropped before the filter. *)
Lemma access_records_reach_filter_witness :
  Logger_log (H := no_args) INFO (import_module true ∅) "aiohttp.access"
             (mkRecord INFO "GET /health" tt) Examples.started
    = (Ret false, Examples.started, []) /\
  Logger_log (H := no_args) WARNING (import_module true ∅) "aiohttp.access"
             (mkRecord INFO "GET / Mozilla/5.0" tt) Examples.started
    = (Ret false, Examples.started, []).
Proof.
  split.
  - rewrite (access_records_reach_filter (H := no_args) true INFO ∅
               (mkRecord INFO "GET /health" tt) Examples.started
               (f_equal filters (untouched_empty "aiohttp.access"))).
    vm_compute. reflexivity.
  - rewrite (access_records_reach_filter (H := no_args) true WARNING ∅
               (mkRecord INFO "GET / Mozilla/5.0" tt) Examples.started
               (f_equal filters (untouched_empty "aiohttp.access"))).
    vm_compute. reflexivity.
Defined.

(** A logger of the network layer of Telethon, with the root at [CRITICAL]
    and a sibling logger that was given the level [DEBUG] before the
    import. *)
Lemma library_subtree_muted_witness :
  getEffectiveLevel CRITICAL
    (import_module false {["telethon.client" := mkLogger DEBUG []]})
    "telethon.network.mtprotosender"
    = WARNING.
Proof.
  apply (library_subtree_muted false CRITICAL {["telethon.client" := mkLogger DEBUG []]}
           "telethon" "network.mtprotosender").
  - do 2 apply list_elem_of_further. apply list_elem_of_here.
  - reflexivity.
  - intros n Hn Hne.
    assert (("telethon" +:+ "." +:+ "network.mtprotosender")
              :: ancestors ("telethon" +:+ "." +:+ "network.mtprotosender")
            = ["telethon.network.mtprotosender"; "telethon.network"; "telethon"]) as Heq
      by (vm_compute; reflexivity).
    rewrite Heq, !elem_of_cons, elem_of_nil in Hn.
    destruct Hn as [-> | [-> | [-> | []]]];
      [vm_compute; reflexivity | vm_compute; reflexivity | contradiction].
Defined.

End LoggerConfiguration.
